(** * Query routing of the video-analysis service (main.py)

    A shallow embedding of [main.py]: the keyword router
    [VideoAgent.process_query], its three handlers, the completion call
    [query_groq] and the [/analyze] and [/transcribe] endpoints.

    Modelling choices.
    - A Python [str] is a [string]; its characters are the code points
      U+0000 .. U+00FF.  On that range [str.lower()] sends [A-Z] and the
      capital letters U+00C0 .. U+00DE (the multiplication sign U+00D7
      apart) to the code point 32 above, and leaves the others alone.
    - A Python value read from, or returned as, JSON is a [pyobj].
    - The outside world (Whisper, the HTTP client, the temporary file) is a
      family of oracles; every call is appended to a trace of events, and
      an oracle may answer with a raised exception. *)

From Stdlib Require Import String Ascii List Bool ZArith NArith Lia.
From Stdlib Require Import DecimalString.
Import ListNotations.

Local Open Scope list_scope.
Local Open Scope string_scope.

(** ** Strings *)

Module Str.

(** [c.lower()] for one character. *)
Definition lower_char (c : ascii) : ascii :=
  let n := N_of_ascii c in
  if ((65 <=? n) && (n <=? 90))%N
     || ((192 <=? n) && (n <=? 222) && negb (n =? 215))%N
  then ascii_of_N (n + 32)
  else c.

(** [s.lower()]. *)
Fixpoint lower (s : string) : string :=
  match s with
  | EmptyString => EmptyString
  | String c s' => String (lower_char c) (lower s')
  end.

(** [sub in s] for two strings: [sub] starts at some position of [s]. *)
Fixpoint contains (sub s : string) : bool :=
  prefix sub s
  || match s with
     | EmptyString => false
     | String _ s' => contains sub s'
     end.

(** [any(keyword in s for keyword in keywords)]. *)
Definition any_in (keywords : list string) (s : string) : bool :=
  existsb (fun keyword => contains keyword s) keywords.

(** [f"{n}"] for an [int]. *)
Definition of_int (n : Z) : string :=
  NilZero.string_of_int (Z.to_int n).

(** The newline character of ["\n"]. *)
Definition nl : string := String (ascii_of_N 10) EmptyString.

(** Substring containment as a relation. *)
Definition Substring (sub s : string) : Prop :=
  exists pre post, s = pre ++ sub ++ post.

(** [u] is a capital letter and [l] the small letter that goes with it:
    the letters are A-Z and the capitals U+00C0 .. U+00DE other than the
    multiplication sign, and the small letter stands 32 places above. *)
Definition capital_of (u l : ascii) : Prop :=
  let n := N_of_ascii u in
  ((65 <= n <= 90) \/ (192 <= n <= 222 /\ n <> 215))%N
  /\ N_of_ascii l = (n + 32)%N.

(** The same character, the case of a letter set aside. *)
Definition same_letter (a b : ascii) : Prop :=
  a = b \/ capital_of a b \/ capital_of b a.

(** The same text, the case of the letters set aside. *)
Fixpoint eq_ci (s1 s2 : string) : Prop :=
  match s1, s2 with
  | EmptyString, EmptyString => True
  | String a s1', String b s2' => same_letter a b /\ eq_ci s1' s2'
  | _, _ => False
  end.

(** [sub] occurs in [s] up to the case of the letters. *)
Definition SubstringCI (sub s : string) : Prop :=
  exists w, eq_ci w sub /\ Substring w s.

End Str.

(** ** Python values and exceptions *)

Module Py.

(** The values that travel as JSON: what [response.json()] yields, the
    request payload, and what the endpoints return. *)
#[warnings="-register-all"]
Inductive pyobj : Type :=
| PyNone
| PyBool (b : bool)
| PyInt (n : Z)
| PyFloat (literal : string)  (* a float, written as [repr] writes it *)
| PyStr (s : string)
| PyList (items : list pyobj)
| PyDict (items : list (string * pyobj)).

(** The floats that are not numbers of JSON. *)
Definition non_finite (literal : string) : bool :=
  String.eqb literal "nan" || String.eqb literal "inf"
  || String.eqb literal "-inf".

(** [json.dumps(v, allow_nan=False)] succeeds: no float in [v] is
    [nan], [inf] or [-inf]. *)
Fixpoint json_compliant (v : pyobj) : bool :=
  match v with
  | PyFloat literal => negb (non_finite literal)
  | PyList items => forallb json_compliant items
  | PyDict items =>
      forallb (fun kv => match kv with (_, x) => json_compliant x end) items
  | _ => true
  end.

(** A raised [Exception]: its class and the text [str(e)] gives. *)
Record exn : Type := Exn { exn_class : string; exn_str : string }.

(** A computation that returns or raises. *)
Definition result (A : Type) : Type := (exn + A)%type.

Definition bind {A B : Type} (c : result A) (k : A -> result B) : result B :=
  match c with
  | inl e => inl e
  | inr a => k a
  end.

(** A subscript [v[k]] is by a string or by an integer. *)
Inductive key : Type :=
| KStr (s : string)
| KInt (i : Z).

(** [type(v).__name__]. *)
Definition type_name (v : pyobj) : string :=
  match v with
  | PyNone => "NoneType"
  | PyBool _ => "bool"
  | PyInt _ => "int"
  | PyFloat _ => "float"
  | PyStr _ => "str"
  | PyList _ => "list"
  | PyDict _ => "dict"
  end.

(** [repr(k)] of a key free of quotes, backslashes and control
    characters, as the keys of this program are. *)
Definition repr_key (k : key) : string :=
  match k with
  | KStr s => "'" ++ s ++ "'"
  | KInt i => Str.of_int i
  end.

Fixpoint lookup (k : string) (items : list (string * pyobj)) : option pyobj :=
  match items with
  | [] => None
  | (k', v) :: rest => if String.eqb k k' then Some v else lookup k rest
  end.

(** Position [i] of a sequence of [len] items, counted from the end when
    negative; [None] when out of range. *)
Definition position (i : Z) (len : nat) : option nat :=
  let i' := if (i <? 0)%Z then (i + Z.of_nat len)%Z else i in
  if ((0 <=? i') && (i' <? Z.of_nat len))%Z then Some (Z.to_nat i') else None.

(** [v[k]], with the exceptions of CPython (the wording of the messages
    is that of version 3.11). *)
Definition getitem (v : pyobj) (k : key) : result pyobj :=
  match v, k with
  | PyDict items, KStr s =>
      match lookup s items with
      | Some x => inr x
      | None => inl (Exn "KeyError" (repr_key k))
      end
  | PyDict _, KInt _ => inl (Exn "KeyError" (repr_key k))
  | PyList items, KInt i =>
      match position i (List.length items) with
      | Some n =>
          match nth_error items n with
          | Some x => inr x
          | None => inl (Exn "IndexError" "list index out of range")
          end
      | None => inl (Exn "IndexError" "list index out of range")
      end
  | PyList _, KStr _ =>
      inl (Exn "TypeError" "list indices must be integers or slices, not str")
  | PyStr s, KInt i =>
      match position i (String.length s) with
      | Some n =>
          match String.get n s with
          | Some c => inr (PyStr (String c ""))
          | None => inl (Exn "IndexError" "string index out of range")
          end
      | None => inl (Exn "IndexError" "string index out of range")
      end
  | PyStr _, KStr _ =>
      inl (Exn "TypeError" "string indices must be integers, not 'str'")
  | _, _ =>
      inl (Exn "TypeError" ("'" ++ type_name v ++ "' object is not subscriptable"))
  end.

(** [f"{x}"] for [x = os.getenv(...)], a [str] or [None]. *)
Definition format_optional (x : option string) : string :=
  match x with
  | Some s => s
  | None => "None"
  end.

End Py.
Import Py.

(** ** The outside world *)

(** The arguments of [requests.post(url, headers=headers, json=payload)]. *)
Record Request : Type := {
  url : string;
  headers : list (string * string);
  payload : pyobj
}.

(** What the program reads of a [requests.Response]; [json] is the outcome
    of [response.json()], which raises on a body that is not JSON. *)
Record Response : Type := {
  status_code : Z;
  text : string;
  json : result pyobj
}.

(** An uploaded video: the bytes [await video.read()] yields. *)
Definition UploadFile : Type := list Byte.byte.

(** The calls that leave the program. *)
Inductive event : Type :=
| EvSaveUpload (video : UploadFile)
| EvTranscribe (video_path : string)
| EvPost (request : Request)
| EvUnlink (path : string).

Definition trace : Type := list event.

(** The environment of a run.  Each oracle sees the calls made so far, so
    that a repeated call may be answered differently. *)
Record World : Type := {
  (** [os.getenv("GROQ_API_KEY")] *)
  GROQ_API_KEY : option string;
  (** the [with tempfile.NamedTemporaryFile(delete=False, suffix=".mp4")]
      block: the file is created, the upload written, its name returned *)
  save_upload : trace -> UploadFile -> result string;
  (** [whisper_model.transcribe(video_path)["text"]] *)
  whisper_transcribe : trace -> string -> result string;
  (** [requests.post] *)
  requests_post : trace -> Request -> result Response;
  (** [Path(p).unlink(missing_ok=True)] *)
  path_unlink : trace -> string -> result unit
}.

(** ** Computations: a trace of calls, and a value or a raised exception *)

Definition M (A : Type) : Type := trace -> result A * trace.

Definition ret {A : Type} (a : A) : M A := fun tr => (inr a, tr).

Definition mbind {A B : Type} (c : M A) (k : A -> M B) : M B :=
  fun tr =>
    match c tr with
    | (inl e, tr') => (inl e, tr')
    | (inr a, tr') => k a tr'
    end.

(** A pure step that may raise. *)
Definition lift {A : Type} (r : result A) : M A := fun tr => (r, tr).

(** A call to the outside: logged, then answered by the oracle. *)
Definition call {A : Type} (ev : event) (oracle : trace -> result A) : M A :=
  fun tr => (oracle tr, (tr ++ [ev])%list).

(** [try: body except Exception as e: handler(e)]. *)
Definition try_except {A : Type} (body : M A) (handler : exn -> M A) : M A :=
  fun tr =>
    match body tr with
    | (inl e, tr') => handler e tr'
    | (inr a, tr') => (inr a, tr')
    end.

Notation "x <- c ;; k" := (mbind c (fun x => k))
  (at level 61, c at next level, right associativity).

(** What an endpoint hands back to FastAPI: a [dict] or an explicit
    [JSONResponse].  A returned [dict] is rendered as JSON and sent with
    status 200; when it cannot be rendered, because it holds a float that
    is not a number, the rendering raises outside the endpoint and the
    server answers 500 with the text "Internal Server Error". *)
Inductive reply : Type :=
| Returned (body : pyobj)
| JSONResponse (status_code : Z) (content : pyobj).

Definition http_status (r : reply) : Z :=
  match r with
  | Returned body => if json_compliant body then 200 else 500
  | JSONResponse code _ => code
  end.

Definition http_body (r : reply) : pyobj :=
  match r with
  | Returned body =>
      if json_compliant body then body else PyStr "Internal Server Error"
  | JSONResponse _ content => content
  end.

(** ** The program *)

Section Program.

Variable world : World.

Definition transcribe_audio (video_path : string) : M string :=
  call (EvTranscribe video_path)
       (fun tr => whisper_transcribe world tr video_path).

Definition default_model : string := "llama3-8b-8192".

Definition query_groq (prompt model : string) : M pyobj :=
  let request :=
    {| url := "https://api.groq.com/openai/v1/chat/completions";
       headers :=
         [("Authorization", "Bearer " ++ format_optional (GROQ_API_KEY world));
          ("Content-Type", "application/json")];
       payload :=
         PyDict
           [("model", PyStr model);
            ("messages",
             PyList
               [PyDict
                  [("role", PyStr "system");
                   ("content",
                    PyStr "You are a helpful assistant for summarizing video content.")];
                PyDict [("role", PyStr "user"); ("content", PyStr prompt)]]);
            ("temperature", PyFloat "0.5")] |} in
  response <- call (EvPost request)
                   (fun tr => requests_post world tr request) ;;
  if (status_code response =? 200)%Z then
    body <- lift (json response) ;;
    choices <- lift (getitem body (KStr "choices")) ;;
    choice <- lift (getitem choices (KInt 0)) ;;
    message <- lift (getitem choice (KStr "message")) ;;
    lift (getitem message (KStr "content"))
  else
    ret (PyStr ("Groq API Error: " ++ Str.of_int (status_code response)
                ++ " - " ++ text response)).

(** --- AGENT LOGIC --- *)

Definition web_search (query : string) : string :=
  "https://www.duckduckgo.com/?q=" ++ query.

Definition fact_checking (query : string) : string :=
  "https://www.duckduckgo.com/?q=" ++ query.

Record VideoAgent : Type := {
  video_path : string;
  user_query : string;
  transcript : string
}.

(** [VideoAgent(video_path, user_query)]. *)
Definition VideoAgent_init (video_path user_query : string) : M VideoAgent :=
  transcript <- transcribe_audio video_path ;;
  ret {| video_path := video_path;
         user_query := user_query;
         transcript := transcript |}.

Definition summarize_video (self : VideoAgent) : M pyobj :=
  let prompt :=
    "Here is the transcript of a video:" ++ Str.nl ++ Str.nl
    ++ transcript self ++ Str.nl ++ Str.nl
    ++ "Now respond to the following request:" ++ Str.nl ++ user_query self in
  query_groq prompt default_model.

Definition search_web (self : VideoAgent) : string :=
  web_search (user_query self).

Definition fact_check (self : VideoAgent) : string :=
  fact_checking (user_query self).

Definition summary_keywords : list string :=
  ["summarize"; "key points"; "summary"; "main ideas"].

Definition web_search_keywords : list string :=
  ["search"; "find more"; "look up"; "additional info"].

Definition fact_check_keywords : list string :=
  ["fact-check"; "verify"; "is this true"; "check"].

Definition process_query (self : VideoAgent) : M pyobj :=
  let user_query_lower := Str.lower (user_query self) in
  if Str.any_in summary_keywords user_query_lower then
    r <- summarize_video self ;;
    ret (PyDict [("type", PyStr "summary"); ("result", r)])
  else if Str.any_in web_search_keywords user_query_lower then
    ret (PyDict [("type", PyStr "web_search");
                 ("result", PyStr (search_web self))])
  else if Str.any_in fact_check_keywords user_query_lower then
    ret (PyDict [("type", PyStr "fact_check");
                 ("result", PyStr (fact_check self))])
  else
    ret (PyDict [("type", PyStr "unknown");
                 ("result", PyStr "Sorry, I couldn't understand the query.")]).

(** --- FastAPI Endpoints --- *)

Definition transcribe_video (video : UploadFile) : M reply :=
  try_except
    (temp_path <- call (EvSaveUpload video)
                       (fun tr => save_upload world tr video) ;;
     transcript <- transcribe_audio temp_path ;;
     _ <- call (EvUnlink temp_path)
               (fun tr => path_unlink world tr temp_path) ;;
     ret (Returned (PyDict [("transcript", PyStr transcript)])))
    (fun e => ret (JSONResponse 500 (PyDict [("error", PyStr (exn_str e))]))).

Definition analyze_video (video : UploadFile) (user_query : string) : M reply :=
  try_except
    (video_path <- call (EvSaveUpload video)
                        (fun tr => save_upload world tr video) ;;
     agent <- VideoAgent_init video_path user_query ;;
     result <- process_query agent ;;
     _ <- call (EvUnlink video_path)
               (fun tr => path_unlink world tr video_path) ;;
     ret (Returned (PyDict [("analysis", result)])))
    (fun e => ret (JSONResponse 500 (PyDict [("error", PyStr (exn_str e))]))).

End Program.

(** ** The routing contract, in the words of the specification *)

Inductive Intent : Type := Summary | WebSearch | FactCheck | Unknown.

(** The value of ["type"] that stands for an intent. *)
Definition tag (i : Intent) : string :=
  match i with
  | Summary => "summary"
  | WebSearch => "web_search"
  | FactCheck => "fact_check"
  | Unknown => "unknown"
  end.

(** The fixed keyword set of each intent. *)
Definition keywords (i : Intent) : list string :=
  match i with
  | Summary => ["summarize"; "key points"; "summary"; "main ideas"]
  | WebSearch => ["search"; "find more"; "look up"; "additional info"]
  | FactCheck => ["fact-check"; "verify"; "is this true"; "check"]
  | Unknown => []
  end.

(** A category matches when one of its keywords occurs in the query, the
    case of the letters set aside. *)
Definition spec_matches (i : Intent) (q : string) : Prop :=
  exists kw, In kw (keywords i) /\ Str.SubstringCI kw q.

(** The first category that matches, in the order Summary, WebSearch,
    FactCheck; Unknown when none does. *)
Definition spec_chosen (i : Intent) (q : string) : Prop :=
  match i with
  | Summary => spec_matches Summary q
  | WebSearch => ~ spec_matches Summary q /\ spec_matches WebSearch q
  | FactCheck =>
      ~ spec_matches Summary q /\ ~ spec_matches WebSearch q
      /\ spec_matches FactCheck q
  | Unknown =>
      ~ spec_matches Summary q /\ ~ spec_matches WebSearch q
      /\ ~ spec_matches FactCheck q
  end.

(** The same choice, computed. *)
Definition spec_route (q : string) : Intent :=
  let matches i := Str.any_in (keywords i) (Str.lower q) in
  if matches Summary then Summary
  else if matches WebSearch then WebSearch
  else if matches FactCheck then FactCheck
  else Unknown.

(** The reply [{"type": t, "result": r}] of the router. *)
Definition analysis (t : string) (r : pyobj) : pyobj :=
  PyDict [("type", PyStr t); ("result", r)].

(** The generic error envelope for the exception [e]: [{"error": str(e)}],
    with status 500. *)
Definition error_envelope (e : exn) : reply :=
  JSONResponse 500 (PyDict [("error", PyStr (exn_str e))]).

(** The completion-request prompt for a transcript and a query. *)
Definition summarize_prompt (self : VideoAgent) : string :=
  "Here is the transcript of a video:" ++ Str.nl ++ Str.nl
  ++ transcript self ++ Str.nl ++ Str.nl
  ++ "Now respond to the following request:" ++ Str.nl ++ user_query self.

(** The request by which a prompt is forwarded to the completion
    service. *)
Definition groq_request (world : World) (prompt model : string) : Request :=
  {| url := "https://api.groq.com/openai/v1/chat/completions";
     headers :=
       [("Authorization", "Bearer " ++ format_optional (GROQ_API_KEY world));
        ("Content-Type", "application/json")];
     payload :=
       PyDict
         [("model", PyStr model);
          ("messages",
           PyList
             [PyDict
                [("role", PyStr "system");
                 ("content",
                  PyStr "You are a helpful assistant for summarizing video content.")];
              PyDict [("role", PyStr "user"); ("content", PyStr prompt)]]);
          ("temperature", PyFloat "0.5")] |}.

(** The text response in the body of a completion:
    [body['choices'][0]['message']['content']]. *)
Definition message_content (response : Response) : result pyobj :=
  Py.bind (json response) (fun body =>
  Py.bind (getitem body (KStr "choices")) (fun choices =>
  Py.bind (getitem choices (KInt 0)) (fun choice =>
  Py.bind (getitem choice (KStr "message")) (fun message =>
  getitem message (KStr "content"))))).

(** What the router does once the intent is fixed. *)
Definition dispatch (world : World) (i : Intent) (self : VideoAgent) : M pyobj :=
  match i with
  | Summary =>
      r <- query_groq world (summarize_prompt self) default_model ;;
      ret (analysis (tag i) r)
  | WebSearch =>
      ret (analysis (tag i) (PyStr ("https://www.duckduckgo.com/?q=" ++ user_query self)))
  | FactCheck =>
      ret (analysis (tag i) (PyStr ("https://www.duckduckgo.com/?q=" ++ user_query self)))
  | Unknown =>
      ret (analysis (tag i) (PyStr "Sorry, I couldn't understand the query."))
  end.

(** The kind of an outside call; a retry would show as two calls of one
    kind in the trace of a request. *)
Inductive call_kind : Type := SaveUpload | Transcribe | Post | Unlink.

Definition kind (ev : event) : call_kind :=
  match ev with
  | EvSaveUpload _ => SaveUpload
  | EvTranscribe _ => Transcribe
  | EvPost _ => Post
  | EvUnlink _ => Unlink
  end.

(** The exception, if any, with which the call [ev], made after the calls
    [tr], was answered. *)
Definition raised (world : World) (tr : trace) (ev : event) : option exn :=
  let exception {A : Type} (r : result A) :=
    match r with inl e => Some e | inr _ => None end in
  match ev with
  | EvSaveUpload video => exception (save_upload world tr video)
  | EvTranscribe p => exception (whisper_transcribe world tr p)
  | EvPost request => exception (requests_post world tr request)
  | EvUnlink p => exception (path_unlink world tr p)
  end.

(** A failure of a collaborator in the sense of the specification: the
    Transcriber fails by raising; the CompletionService fails when the
    upstream call does not succeed, that is, when it raises or answers
    with a status other than 200. *)
Definition failed (world : World) (tr : trace) (ev : event) : Prop :=
  match ev with
  | EvTranscribe p => exists e, whisper_transcribe world tr p = inl e
  | EvPost request =>
      match requests_post world tr request with
      | inl _ => True
      | inr response => status_code response <> 200%Z
      end
  | _ => False
  end.

(** The reply is the generic error envelope [{error: message}], sent with
    status 500. *)
Definition is_error_envelope (r : reply) : Prop :=
  http_status r = 500%Z /\ exists message, http_body r = PyDict [("error", PyStr message)].

(** The propagation policy as the specification words it: whenever a
    collaborator failed while a request was served, the reply of
    [/analyze] is the error envelope. *)
Definition error_envelope_policy : Prop :=
  forall world video q tr r pre ev post,
    analyze_video world video q tr = (inr r, (tr ++ pre ++ ev :: post)%list) ->
    failed world (tr ++ pre)%list ev ->
    is_error_envelope r.

(** ** Sample environments *)

Definition completion_body (content : string) : pyobj :=
  PyDict
    [("id", PyStr "chatcmpl-1");
     ("choices",
      PyList
        [PyDict
           [("index", PyInt 0);
            ("message",
             PyDict [("role", PyStr "assistant"); ("content", PyStr content)]);
            ("finish_reason", PyStr "stop")]])].

(** Every collaborator answers. *)
Definition world_ok : World :=
  {| GROQ_API_KEY := Some "gsk_test";
     save_upload := fun _ _ => inr "/tmp/tmpab12cd.mp4";
     whisper_transcribe := fun _ _ => inr " Hello and welcome to the show.";
     requests_post := fun _ _ =>
       inr {| status_code := 200;
              text := "";
              json := inr (completion_body "The host greets the audience.") |};
     path_unlink := fun _ _ => inr tt |}.

(** The completion service answers 429. *)
Definition world_429 : World :=
  {| GROQ_API_KEY := Some "gsk_test";
     save_upload := fun _ _ => inr "/tmp/tmpab12cd.mp4";
     whisper_transcribe := fun _ _ => inr " Hello and welcome to the show.";
     requests_post := fun _ _ =>
       inr {| status_code := 429;
              text := "Rate limit reached";
              json := inl (Exn "JSONDecodeError"
                               "Expecting value: line 1 column 1 (char 0)") |};
     path_unlink := fun _ _ => inr tt |}.

(** The completion service answers 503 with an HTML page. *)
Definition world_503 : World :=
  {| GROQ_API_KEY := Some "gsk_test";
     save_upload := fun _ _ => inr "/tmp/tmpab12cd.mp4";
     whisper_transcribe := fun _ _ => inr " Hello and welcome to the show.";
     requests_post := fun _ _ =>
       inr {| status_code := 503;
              text := "<html>Service Unavailable</html>";
              json := inl (Exn "JSONDecodeError"
                               "Expecting value: line 1 column 1 (char 0)") |};
     path_unlink := fun _ _ => inr tt |}.

(** The transcription works, the completion service cannot be reached,
    and no API key is set. *)
Definition world_offline : World :=
  {| GROQ_API_KEY := None;
     save_upload := fun _ _ => inr "/tmp/tmpab12cd.mp4";
     whisper_transcribe := fun _ _ => inr " Hello and welcome to the show.";
     requests_post := fun _ _ =>
       inl (Exn "ConnectionError" "Connection refused");
     path_unlink := fun _ _ => inr tt |}.

(** Whisper cannot read the file. *)
Definition world_bad_media : World :=
  {| GROQ_API_KEY := None;
     save_upload := fun _ _ => inr "/tmp/tmpab12cd.mp4";
     whisper_transcribe := fun _ _ =>
       inl (Exn "RuntimeError" "Failed to load audio");
     requests_post := fun _ _ =>
       inl (Exn "ConnectionError" "Connection refused");
     path_unlink := fun _ _ => inr tt |}.

Definition agent (q t : string) : VideoAgent :=
  {| video_path := "/tmp/tmpab12cd.mp4"; user_query := q; transcript := t |}.

(** The completion service answers 200 with an empty JSON object. *)
Definition world_empty_body : World :=
  {| GROQ_API_KEY := Some "gsk_test";
     save_upload := fun _ _ => inr "/tmp/tmpab12cd.mp4";
     whisper_transcribe := fun _ _ => inr " Hello and welcome to the show.";
     requests_post := fun _ _ =>
       inr {| status_code := 200; text := "{}"; json := inr (PyDict []) |};
     path_unlink := fun _ _ => inr tt |}.

(** ** Auxiliary notions *)

(** The place of an intent in the order of the tests. *)
Definition rank (i : Intent) : nat :=
  match i with
  | Summary => 0
  | WebSearch => 1
  | FactCheck => 2
  | Unknown => 3
  end.

(** The three decimal digits of a number from 100 to 999. *)
Definition decimal3 (n : Z) : string :=
  let digit (d : Z) : ascii := ascii_of_N (48 + Z.to_N d) in
  String (digit (n / 100)%Z)
    (String (digit (n / 10 mod 10)%Z) (String (digit (n mod 10)%Z) "")).

(** The text that stands between transcript and request in the prompt. *)
Definition request_separator : string :=
  Str.nl ++ Str.nl ++ "Now respond to the following request:" ++ Str.nl.

(** The sequences of calls a request to [/analyze] can make. *)
Definition analyze_call_orders : list (list call_kind) :=
  [[SaveUpload];
   [SaveUpload; Transcribe];
   [SaveUpload; Transcribe; Post];
   [SaveUpload; Transcribe; Unlink];
   [SaveUpload; Transcribe; Post; Unlink]].

(** * Properties *)

(** ** Strings *)

Module StrFacts.
Import Str.

Lemma append_nil_r (s : string) : s ++ "" = s.
Proof. induction s as [|c s IH]; simpl; [reflexivity | now rewrite IH]. Qed.

Lemma append_assoc (a b c : string) : (a ++ b) ++ c = a ++ b ++ c.
Proof. induction a as [|x a IH]; simpl; [reflexivity | now rewrite IH]. Qed.

Lemma prefix_app (sub s : string) :
  prefix sub s = true <-> exists post, s = sub ++ post.
Proof.
  revert sub; induction s as [|c s IH]; intros [|d sub]; simpl.
  - split; [now exists "" | reflexivity].
  - split; [discriminate | intros [post H]; discriminate].
  - split; [now exists (String c s) | reflexivity].
  - destruct (ascii_dec d c) as [->|Hne].
    + rewrite IH. split; intros [post H]; exists post.
      * now rewrite H.
      * now injection H.
    + split; [discriminate | intros [post H]; injection H; congruence].
Qed.

Lemma contains_spec (sub s : string) :
  contains sub s = true <-> Substring sub s.
Proof.
  induction s as [|c s IH]; cbn [contains].
  - rewrite orb_false_r, prefix_app. split.
    + intros [post H]. now exists "", post.
    + intros [[|x pre] [post H]]; [now exists post | discriminate].
  - rewrite orb_true_iff, prefix_app, IH. split.
    + intros [[post H] | [pre [post H]]].
      * now exists "", post.
      * exists (String c pre), post. simpl. now rewrite H.
    + intros [[|x pre] [post H]].
      * left. now exists post.
      * right. exists pre, post. simpl in H. now injection H.
Qed.

Lemma lower_app (a b : string) : lower (a ++ b) = lower a ++ lower b.
Proof. induction a as [|c a IH]; simpl; [reflexivity | now rewrite IH]. Qed.

Lemma lower_char_idem (c : ascii) : lower_char (lower_char c) = lower_char c.
Proof.
  destruct c as [[] [] [] [] [] [] [] []]; reflexivity.
Qed.

Lemma lower_idem (s : string) : lower (lower s) = lower s.
Proof.
  induction s as [|c s IH]; simpl; [reflexivity |].
  now rewrite lower_char_idem, IH.
Qed.

(** A split of [lower s] comes from a split of [s]. *)
Lemma lower_split (s a b : string) :
  lower s = a ++ b -> exists s1 s2, s = s1 ++ s2 /\ lower s1 = a /\ lower s2 = b.
Proof.
  revert s; induction a as [|x a IH]; intros s H; simpl in H.
  - now exists "", s.
  - destruct s as [|c s]; simpl in H; [discriminate |].
    injection H as Hc Hs. destruct (IH _ Hs) as (s1 & s2 & -> & H1 & H2).
    exists (String c s1), s2. simpl. now rewrite Hc, H1.
Qed.

(** The test of [lower_char] picks the capital letters. *)
Lemma capital_test (n : N) :
  ((65 <=? n) && (n <=? 90) || (192 <=? n) && (n <=? 222) && negb (n =? 215))%N
  = true
  <-> ((65 <= n <= 90) \/ (192 <= n <= 222 /\ n <> 215))%N.
Proof.
  rewrite orb_true_iff, !andb_true_iff, negb_true_iff, !N.leb_le, N.eqb_neq.
  tauto.
Qed.

(** The code point of a lower-cased character. *)
Lemma code_lower_char (c : ascii) :
  N_of_ascii (lower_char c)
  = (let n := N_of_ascii c in
     if ((65 <=? n) && (n <=? 90)) || ((192 <=? n) && (n <=? 222) && negb (n =? 215))
     then n + 32 else n)%N.
Proof.
  unfold lower_char. cbv zeta.
  destruct (((65 <=? N_of_ascii c) && (N_of_ascii c <=? 90)
             || (192 <=? N_of_ascii c) && (N_of_ascii c <=? 222)
                && negb (N_of_ascii c =? 215))%N) eqn:H; [| reflexivity].
  apply N_ascii_embedding.
  rewrite orb_true_iff, !andb_true_iff, !N.leb_le in H. lia.
Qed.

Lemma ascii_eq_code (a b : ascii) : a = b <-> N_of_ascii a = N_of_ascii b.
Proof.
  split; [now intros -> |]. intros H.
  rewrite <- (ascii_N_embedding a), <- (ascii_N_embedding b). now rewrite H.
Qed.

(** Two characters are the same letter exactly when [lower] sends them to
    one character. *)
Lemma same_letter_lower (a b : ascii) :
  same_letter a b <-> lower_char a = lower_char b.
Proof.
  unfold same_letter, capital_of. cbv zeta.
  rewrite (ascii_eq_code (lower_char a)), !code_lower_char, (ascii_eq_code a b).
  cbv zeta.
  pose proof (N_ascii_bounded a) as Ba. pose proof (N_ascii_bounded b) as Bb.
  pose proof (capital_test (N_of_ascii a)) as Ha.
  pose proof (capital_test (N_of_ascii b)) as Hb.
  destruct (((65 <=? N_of_ascii a) && (N_of_ascii a <=? 90)
             || (192 <=? N_of_ascii a) && (N_of_ascii a <=? 222)
                && negb (N_of_ascii a =? 215))%N);
    destruct (((65 <=? N_of_ascii b) && (N_of_ascii b <=? 90)
               || (192 <=? N_of_ascii b) && (N_of_ascii b <=? 222)
                  && negb (N_of_ascii b =? 215))%N);
    [ assert (Pa := proj1 Ha eq_refl); assert (Pb := proj1 Hb eq_refl)
    | assert (Pa := proj1 Ha eq_refl);
      assert (Pb : ~ _) by (intros P; apply Hb in P; discriminate P)
    | assert (Pa : ~ _) by (intros P; apply Ha in P; discriminate P);
      assert (Pb := proj1 Hb eq_refl)
    | assert (Pa : ~ _) by (intros P; apply Ha in P; discriminate P);
      assert (Pb : ~ _) by (intros P; apply Hb in P; discriminate P) ];
    clear Ha Hb; lia.
Qed.

Lemma eq_ci_lower (s1 s2 : string) : eq_ci s1 s2 <-> lower s1 = lower s2.
Proof.
  revert s2; induction s1 as [|a s1 IH]; intros [|b s2]; simpl;
    try (split; [tauto | discriminate]); [tauto |].
  rewrite same_letter_lower, IH. split.
  - now intros [-> ->].
  - intros [= Hc Hs]. now split.
Qed.

(** The test of the router, [keyword in query.lower()], is containment up
    to case. *)
Lemma contains_lower_spec (kw q : string) :
  lower kw = kw -> (contains kw (lower q) = true <-> SubstringCI kw q).
Proof.
  intros Hkw. rewrite contains_spec. split.
  - intros (pre & post & H).
    destruct (lower_split _ _ _ H) as (s1 & r & -> & _ & Hr).
    destruct (lower_split _ _ _ Hr) as (w & s3 & -> & Hw & _).
    exists w. split; [apply eq_ci_lower; now rewrite Hkw | now exists s1, s3].
  - intros (w & Hw & pre & post & ->). apply eq_ci_lower in Hw.
    exists (lower pre), (lower post).
    now rewrite !lower_app, Hw, Hkw.
Qed.

Lemma any_in_spec (kws : list string) (s : string) :
  any_in kws s = true <-> exists kw, In kw kws /\ Substring kw s.
Proof.
  unfold any_in. rewrite existsb_exists.
  split; intros (kw & Hin & H); exists kw; split; auto; now apply contains_spec.
Qed.

End StrFacts.
Import StrFacts.

(** ** The computation monad *)

Lemma mbind_ret_l {A B : Type} (a : A) (k : A -> M B) :
  (x <- ret a ;; k x) = k a.
Proof. reflexivity. Qed.

Lemma mbind_run {A B : Type} (c : M A) (k : A -> M B) (tr : trace) :
  (x <- c ;; k x) tr
  = match c tr with
    | (inl e, tr') => (inl e, tr')
    | (inr a, tr') => k a tr'
    end.
Proof. reflexivity. Qed.

(** ** Running the program

    [exec] unfolds the program and the operations on computations; what is
    left is a cascade of case distinctions on the answers of the outside
    world. *)
Ltac exec :=
  unfold analyze_video, transcribe_video, VideoAgent_init, transcribe_audio,
         process_query, summarize_video, search_web, fact_check, web_search,
         fact_checking, query_groq, try_except, mbind, call, lift, ret;
  cbv beta iota zeta;
  rewrite <- ?app_assoc; cbn [app].

(** After a case distinction: the chosen branch is entered and the trace
    is written as one list. *)
Ltac enter := cbv beta iota zeta; rewrite <- ?app_assoc; cbn [app].

(** One step of the cascade: the scrutinee of a case distinction is
    replaced by each of its possible values. *)
Ltac case_answer :=
  match goal with
  | |- context [match ?x with _ => _ end] =>
      lazymatch x with
      | context [match _ with _ => _ end] => fail
      | _ => destruct x eqn:?
      end
  end.

Ltac case_answers := repeat first [reflexivity | case_answer].

(** ** Keyword matching *)

Lemma keywords_lower (i : Intent) (kw : string) :
  In kw (keywords i) -> Str.lower kw = kw.
Proof.
  destruct i; simpl; intuition (subst; reflexivity).
Qed.

(** The test of the code decides the relation of the specification. *)
Lemma matches_iff (i : Intent) (q : string) :
  spec_matches i q <-> Str.any_in (keywords i) (Str.lower q) = true.
Proof.
  unfold spec_matches. rewrite any_in_spec.
  split; intros (kw & Hin & H); exists kw; split; auto.
  - apply contains_spec.
    now apply (contains_lower_spec kw q (keywords_lower i kw Hin)).
  - apply (contains_lower_spec kw q (keywords_lower i kw Hin)).
    now apply contains_spec.
Qed.

Lemma not_matches_iff (i : Intent) (q : string) :
  ~ spec_matches i q <-> Str.any_in (keywords i) (Str.lower q) = false.
Proof.
  rewrite matches_iff. now destruct (Str.any_in _ _).
Qed.

Lemma spec_route_chosen (q : string) (i : Intent) :
  spec_chosen i q <-> spec_route q = i.
Proof.
  unfold spec_route, spec_chosen. cbv zeta beta.
  destruct i; rewrite ?not_matches_iff, ?matches_iff;
    destruct (Str.any_in (keywords Summary) (Str.lower q)),
             (Str.any_in (keywords WebSearch) (Str.lower q)),
             (Str.any_in (keywords FactCheck) (Str.lower q));
    intuition congruence.
Qed.

Lemma spec_chosen_unique (q : string) (i j : Intent) :
  spec_chosen i q -> spec_chosen j q -> i = j.
Proof.
  rewrite !spec_route_chosen. congruence.
Qed.

Lemma tag_injective (i j : Intent) : tag i = tag j -> i = j.
Proof. destruct i, j; simpl; congruence. Qed.

(** ** The router *)

Lemma process_query_dispatch (world : World) (self : VideoAgent) :
  process_query world self = dispatch world (spec_route (user_query self)) self.
Proof.
  unfold process_query, spec_route. cbv zeta beta.
  change summary_keywords with (keywords Summary).
  change web_search_keywords with (keywords WebSearch).
  change fact_check_keywords with (keywords FactCheck).
  destruct (Str.any_in (keywords Summary) _); [reflexivity |].
  destruct (Str.any_in (keywords WebSearch) _); [reflexivity |].
  destruct (Str.any_in (keywords FactCheck) _); reflexivity.
Qed.

Lemma dispatch_type (world : World) (i : Intent) (self : VideoAgent)
      (tr tr' : trace) (r : pyobj) :
  dispatch world i self tr = (inr r, tr') ->
  getitem r (KStr "type") = inr (PyStr (tag i)).
Proof.
  destruct i; simpl; unfold ret; try (intros [= <- _]; reflexivity).
  rewrite mbind_run. destruct (query_groq _ _ _ _) as [[e|c] tr0];
    [discriminate | intros [= <- _]; reflexivity].
Qed.

(** C1.  For every transcript and query the router settles on exactly one
    intent: the first category, in the order Summary, WebSearch, FactCheck,
    one of whose keywords occurs in the query up to case, and Unknown when
    there is none.  It then behaves as that intent's handler, and a value it
    returns carries that intent's tag. *)
Theorem route_chooses_one_intent (world : World) (self : VideoAgent) :
  exists! i : Intent,
    spec_chosen i (user_query self)
    /\ process_query world self = dispatch world i self
    /\ forall tr r tr',
         process_query world self tr = (inr r, tr') ->
         getitem r (KStr "type") = inr (PyStr (tag i)).
Proof.
  assert (Hd : process_query world self
               = dispatch world (spec_route (user_query self)) self).
  { unfold process_query, spec_route. cbv zeta beta.
    change summary_keywords with (keywords Summary).
    change web_search_keywords with (keywords WebSearch).
    change fact_check_keywords with (keywords FactCheck).
    destruct (Str.any_in (keywords Summary) _); [reflexivity |].
    destruct (Str.any_in (keywords WebSearch) _); [reflexivity |].
    destruct (Str.any_in (keywords FactCheck) _); reflexivity. }
  exists (spec_route (user_query self)). split.
  - split; [now apply spec_route_chosen |].
    split; [exact Hd |].
    intros tr r tr'. rewrite Hd. apply dispatch_type.
  - intros j (Hj & _). now apply spec_route_chosen.
Qed.

Lemma route_chooses_one_intent_witness :
  spec_chosen Summary "Please SUMMARIZE it, Search the web and Verify"
  /\ ~ spec_chosen WebSearch "Please SUMMARIZE it, Search the web and Verify"
  /\ process_query world_ok
       {| video_path := "/tmp/tmpab12cd.mp4";
          user_query := "Please SUMMARIZE it, Search the web and Verify";
          transcript := " Hello and welcome to the show." |} []
     = (inr (PyDict [("type", PyStr "summary");
                     ("result", PyStr "The host greets the audience.")]),
        [EvPost
           {| url := "https://api.groq.com/openai/v1/chat/completions";
              headers :=
                [("Authorization", "Bearer gsk_test");
                 ("Content-Type", "application/json")];
              payload :=
                PyDict
                  [("model", PyStr "llama3-8b-8192");
                   ("messages",
                    PyList
                      [PyDict
                         [("role", PyStr "system");
                          ("content",
                           PyStr "You are a helpful assistant for summarizing video content.")];
                       PyDict [("role", PyStr "user"); ("content", PyStr "Here is the transcript of a video:

 Hello and welcome to the show.

Now respond to the following request:
Please SUMMARIZE it, Search the web and Verify")]]);
                   ("temperature", PyFloat "0.5")] |}]).
Proof.
  destruct (route_chooses_one_intent world_ok
              {| video_path := "/tmp/tmpab12cd.mp4";
                 user_query := "Please SUMMARIZE it, Search the web and Verify";
                 transcript := " Hello and welcome to the show." |})
    as (i & (Hchosen & _ & Htype) & _).
  assert (Hrun : process_query world_ok
                   {| video_path := "/tmp/tmpab12cd.mp4";
                      user_query := "Please SUMMARIZE it, Search the web and Verify";
                      transcript := " Hello and welcome to the show." |} []
                 = (inr (PyDict [("type", PyStr "summary");
                                 ("result", PyStr "The host greets the audience.")]),
                    _)) by reflexivity.
  assert (Hi : i = Summary).
  { apply tag_injective. specialize (Htype _ _ _ Hrun).
    simpl in Htype. now injection Htype as <-. }
  subst i. simpl user_query in Hchosen.
  split; [exact Hchosen |].
  split; [intros [Hno _]; exact (Hno Hchosen) | exact Hrun].
Defined.

(** C2.  A query whose lower-casing contains "summary" is routed to
    Summary, whatever other keywords it holds. *)
Theorem summary_keyword_wins (world : World) (self : VideoAgent) :
  Str.Substring "summary" (Str.lower (user_query self)) ->
  process_query world self = dispatch world Summary self.
Proof.
  intros H. rewrite process_query_dispatch. f_equal.
  apply spec_route_chosen, matches_iff, any_in_spec.
  exists "summary". split; [simpl; tauto | exact H].
Qed.

Lemma summary_keyword_wins_witness :
  Str.Substring "summary" (Str.lower "Search, verify and check the SUMMARY")
  /\ process_query world_ok (agent "Search, verify and check the SUMMARY" "t")
     = dispatch world_ok Summary (agent "Search, verify and check the SUMMARY" "t").
Proof.
  split.
  - exists "search, verify and check the ", "". reflexivity.
  - apply (summary_keyword_wins world_ok).
    exists "search, verify and check the ", "". reflexivity.
Defined.

(** ** The completion call *)

(** The chain of subscripts of the completion call reads the content of
    the first message and calls nothing. *)
Lemma subscripts_run (response : Response) (tr : trace) :
  (body <- lift (json response) ;;
   choices <- lift (getitem body (KStr "choices")) ;;
   choice <- lift (getitem choices (KInt 0)) ;;
   message <- lift (getitem choice (KStr "message")) ;;
   lift (getitem message (KStr "content"))) tr
  = (message_content response, tr).
Proof.
  unfold message_content. rewrite mbind_run. unfold lift at 1.
  destruct (json response) as [e|body]; [reflexivity |].
  cbn [Py.bind]. rewrite mbind_run. unfold lift at 1.
  destruct (getitem body _) as [e|choices]; [reflexivity |].
  cbn [Py.bind]. rewrite mbind_run. unfold lift at 1.
  destruct (getitem choices _) as [e|choice]; [reflexivity |].
  cbn [Py.bind]. rewrite mbind_run. unfold lift at 1.
  destruct (getitem choice _) as [e|message]; reflexivity.
Qed.

(** One request goes out; its answer decides the outcome. *)
Lemma query_groq_run (world : World) (prompt model : string) (tr : trace) :
  query_groq world prompt model tr
  = (match requests_post world tr (groq_request world prompt model) with
     | inl e => inl e
     | inr response =>
         if (status_code response =? 200)%Z then message_content response
         else inr (PyStr ("Groq API Error: " ++ Str.of_int (status_code response)
                          ++ " - " ++ text response))
     end,
     (tr ++ [EvPost (groq_request world prompt model)])%list).
Proof.
  unfold query_groq. cbv zeta. rewrite mbind_run. unfold call.
  change {| url := "https://api.groq.com/openai/v1/chat/completions";
            headers := _; payload := _ |}
    with (groq_request world prompt model).
  destruct (requests_post world tr _) as [e|response]; [reflexivity |].
  destruct (status_code response =? 200)%Z;
    [apply subscripts_run | reflexivity].
Qed.

(** [f"{n}"] writes a number of three digits by its digits. *)
Lemma of_int_decimal3 (n : Z) :
  (100 <= n <= 999)%Z -> Str.of_int n = decimal3 n.
Proof.
  intros H.
  assert (Hall : forallb (fun k => String.eqb (Str.of_int (Z.of_nat k))
                                              (decimal3 (Z.of_nat k)))
                         (seq 100 900) = true) by (vm_compute; reflexivity).
  rewrite forallb_forall in Hall.
  specialize (Hall (Z.to_nat n)). rewrite Z2Nat.id in Hall by lia.
  apply String.eqb_eq, Hall, in_seq. lia.
Qed.

Lemma summarize_prompt_combines (self : VideoAgent) :
  Str.Substring (transcript self) (summarize_prompt self)
  /\ Str.Substring (user_query self) (summarize_prompt self).
Proof.
  unfold summarize_prompt. split.
  - exists ("Here is the transcript of a video:" ++ Str.nl ++ Str.nl),
           (Str.nl ++ Str.nl ++ "Now respond to the following request:"
            ++ Str.nl ++ user_query self).
    now rewrite !append_assoc.
  - exists ("Here is the transcript of a video:" ++ Str.nl ++ Str.nl
            ++ transcript self ++ Str.nl ++ Str.nl
            ++ "Now respond to the following request:" ++ Str.nl), "".
    now rewrite append_nil_r, !append_assoc.
Qed.

(** C3.  When the query matches a Summary keyword the router answers with
    the Summary tag and, as result, the text response of the completion
    service to a prompt that combines transcript and query: exactly one
    request goes out, it carries that prompt as the user message, and on a
    200 answer the result is the content of the first choice's message. *)
Theorem summary_result_is_completion (world : World) (self : VideoAgent) :
  spec_matches Summary (user_query self) ->
  let prompt :=
    "Here is the transcript of a video:

" ++ transcript self ++ "

Now respond to the following request:
" ++ user_query self in
  let request :=
    {| url := "https://api.groq.com/openai/v1/chat/completions";
       headers :=
         [("Authorization", "Bearer " ++ match GROQ_API_KEY world with
                       | Some key => key
                       | None => "None"
                       end);
          ("Content-Type", "application/json")];
       payload :=
         PyDict
           [("model", PyStr "llama3-8b-8192");
            ("messages",
             PyList
               [PyDict
                  [("role", PyStr "system");
                   ("content",
                    PyStr "You are a helpful assistant for summarizing video content.")];
                PyDict [("role", PyStr "user"); ("content", PyStr prompt)]]);
            ("temperature", PyFloat "0.5")] |} in
  (Str.Substring (transcript self) prompt
   /\ Str.Substring (user_query self) prompt)
  /\ process_query world self
     = (r <- query_groq world prompt "llama3-8b-8192" ;;
        ret (PyDict [("type", PyStr "summary"); ("result", r)]))
  /\ (forall tr, snd (process_query world self tr) = (tr ++ [EvPost request])%list)
  /\ forall tr response body choices choice message content,
       requests_post world tr request = inr response ->
       status_code response = 200%Z ->
       json response = inr body ->
       getitem body (KStr "choices") = inr choices ->
       getitem choices (KInt 0) = inr choice ->
       getitem choice (KStr "message") = inr message ->
       getitem message (KStr "content") = inr content ->
       process_query world self tr
       = (inr (PyDict [("type", PyStr "summary"); ("result", content)]),
          (tr ++ [EvPost request])%list).
Proof.
  intros H prompt request.
  assert (Hany : Str.any_in summary_keywords (Str.lower (user_query self))
                 = true)
    by exact (proj1 (matches_iff Summary _) H).
  split; [exact (summarize_prompt_combines self) |].
  split.
  { unfold process_query. cbv zeta. rewrite Hany. reflexivity. }
  split.
  { intros tr. exec. rewrite Hany.
    change {| url := _; headers := _; payload := _ |} with request.
    case_answers. }
  intros tr response body choices choice message content
         Hpost Hstatus Hjson H1 H2 H3 H4.
  exec. rewrite Hany.
  change {| url := _; headers := _; payload := _ |} with request.
  rewrite Hpost, Hstatus. cbn [Z.eqb Pos.eqb].
  rewrite Hjson, H1, H2, H3, H4. reflexivity.
Qed.

Lemma summary_result_is_completion_witness :
  spec_matches Summary "Please summarize this"
  /\ process_query world_ok
       {| video_path := "/tmp/tmpab12cd.mp4";
          user_query := "Please summarize this";
          transcript := " Hello and welcome to the show." |} []
     = (inr (PyDict [("type", PyStr "summary");
                     ("result", PyStr "The host greets the audience.")]),
        [EvPost
           {| url := "https://api.groq.com/openai/v1/chat/completions";
              headers :=
                [("Authorization", "Bearer gsk_test");
                 ("Content-Type", "application/json")];
              payload :=
                PyDict
                  [("model", PyStr "llama3-8b-8192");
                   ("messages",
                    PyList
                      [PyDict
                         [("role", PyStr "system");
                          ("content",
                           PyStr "You are a helpful assistant for summarizing video content.")];
                       PyDict [("role", PyStr "user"); ("content", PyStr "Here is the transcript of a video:

 Hello and welcome to the show.

Now respond to the following request:
Please summarize this")]]);
                   ("temperature", PyFloat "0.5")] |}]).
Proof.
  assert (H : spec_matches Summary "Please summarize this").
  { exists "summarize". split; [simpl; tauto |].
    exists "summarize". split; [apply eq_ci_lower; reflexivity |].
    exists "Please ", " this". reflexivity. }
  split; [exact H |].
  destruct (summary_result_is_completion world_ok
              {| video_path := "/tmp/tmpab12cd.mp4";
                 user_query := "Please summarize this";
                 transcript := " Hello and welcome to the show." |} H)
    as (_ & _ & _ & Hrun).
  apply (Hrun []
           {| status_code := 200; text := "";
              json := inr (completion_body "The host greets the audience.") |}
           (completion_body "The host greets the audience.")
           (PyList
              [PyDict
                 [("index", PyInt 0);
                  ("message",
                   PyDict [("role", PyStr "assistant");
                           ("content", PyStr "The host greets the audience.")]);
                  ("finish_reason", PyStr "stop")]])
           (PyDict
              [("index", PyInt 0);
               ("message",
                PyDict [("role", PyStr "assistant");
                        ("content", PyStr "The host greets the audience.")]);
               ("finish_reason", PyStr "stop")])
           (PyDict [("role", PyStr "assistant");
                    ("content", PyStr "The host greets the audience.")]));
    reflexivity.
Defined.

(** C4.  The query "can you search for more info" is routed to WebSearch:
    the reply has type "web_search" and, as result, the search URL followed
    by the query as it was given, not encoded and in its own case. *)
Theorem web_search_example (world : World) (p t : string) (tr : trace) :
  process_query world
    {| video_path := p; user_query := "can you search for more info";
       transcript := t |} tr
  = (inr (PyDict
            [("type", PyStr "web_search");
             ("result",
              PyStr "https://www.duckduckgo.com/?q=can you search for more info")]),
     tr)
  /\ process_query world
       {| video_path := p; user_query := "Look UP: caf%C3 & tea?";
          transcript := t |} tr
     = (inr (PyDict
               [("type", PyStr "web_search");
                ("result",
                 PyStr "https://www.duckduckgo.com/?q=Look UP: caf%C3 & tea?")]),
        tr).
Proof. split; reflexivity. Qed.

(** C5.  The query "please fact-check this claim" is routed to FactCheck:
    the reply has type "fact_check" and, as result, the search URL followed
    by the query. *)
Theorem fact_check_example (world : World) (p t : string) (tr : trace) :
  process_query world
    {| video_path := p; user_query := "please fact-check this claim";
       transcript := t |} tr
  = (inr (PyDict
            [("type", PyStr "fact_check");
             ("result",
              PyStr "https://www.duckduckgo.com/?q=please fact-check this claim")]),
     tr).
Proof. reflexivity. Qed.

(** C6.  A query in which no keyword of the three sets occurs, up to case,
    is answered with type "unknown" and the fixed apology; nothing is
    called. *)
Theorem no_keyword_is_unknown (world : World) (self : VideoAgent) (tr : trace) :
  (forall i, ~ spec_matches i (user_query self)) ->
  process_query world self tr
  = (inr (PyDict [("type", PyStr "unknown");
                  ("result", PyStr "Sorry, I couldn't understand the query.")]),
     tr).
Proof.
  intros H. unfold process_query. cbv zeta.
  rewrite (proj1 (not_matches_iff Summary _) (H Summary)
           : Str.any_in summary_keywords _ = false).
  rewrite (proj1 (not_matches_iff WebSearch _) (H WebSearch)
           : Str.any_in web_search_keywords _ = false).
  rewrite (proj1 (not_matches_iff FactCheck _) (H FactCheck)
           : Str.any_in fact_check_keywords _ = false).
  reflexivity.
Qed.

Lemma no_keyword_is_unknown_witness :
  (forall i, ~ spec_matches i "what is the weather")
  /\ process_query world_ok
       {| video_path := "/tmp/tmpab12cd.mp4";
          user_query := "what is the weather";
          transcript := " Hello and welcome to the show." |} []
     = (inr (PyDict [("type", PyStr "unknown");
                     ("result", PyStr "Sorry, I couldn't understand the query.")]),
        []).
Proof.
  assert (H : forall i, ~ spec_matches i "what is the weather").
  { intros i. apply not_matches_iff. destruct i; reflexivity. }
  split; [exact H |].
  apply (no_keyword_is_unknown world_ok
           {| video_path := "/tmp/tmpab12cd.mp4";
              user_query := "what is the weather";
              transcript := " Hello and welcome to the show." |} [] H).
Defined.

(** C8.  The web-search handler and the fact-check handler return the same
    string on every query, as functions and as methods of the agent. *)
Theorem web_search_eq_fact_checking (q : string) (self : VideoAgent) :
  web_search q = fact_checking q /\ search_web self = fact_check self.
Proof. split; reflexivity. Qed.

(** C10.  The intent is a function of the query alone: two agents with the
    same query and any two transcripts are routed alike, and outside the
    Summary branch they return the same value without calling anything. *)
Theorem intent_independent_of_transcript
        (world : World) (q p1 t1 p2 t2 : string) :
  let a1 := {| video_path := p1; user_query := q; transcript := t1 |} in
  let a2 := {| video_path := p2; user_query := q; transcript := t2 |} in
  exists i : Intent,
    spec_chosen i q
    /\ process_query world a1 = dispatch world i a1
    /\ process_query world a2 = dispatch world i a2
    /\ (i <> Summary ->
        exists result : string,
          forall tr1 tr2,
            process_query world a1 tr1
            = (inr (analysis (tag i) (PyStr result)), tr1)
            /\ process_query world a2 tr2
               = (inr (analysis (tag i) (PyStr result)), tr2)).
Proof.
  intros a1 a2. exists (spec_route q).
  split; [now apply spec_route_chosen |].
  split; [apply (process_query_dispatch world a1) |].
  split; [apply (process_query_dispatch world a2) |].
  intros Hi.
  rewrite (process_query_dispatch world a1), (process_query_dispatch world a2).
  simpl user_query. destruct (spec_route q); [congruence | | | ];
    eexists; intros tr1 tr2; split; reflexivity.
Qed.

(** C7.  When the completion service answers with a status other than 200,
    the Summary branch returns the string "Groq API Error: <status> - <body>":
    the status in decimal digits and the body text as received are both
    part of it, and the single request is all that went out. *)
Theorem completion_error_is_embedded
        (world : World) (self : VideoAgent) (tr : trace) (response : Response) :
  let prompt :=
    "Here is the transcript of a video:

" ++ transcript self ++ "

Now respond to the following request:
" ++ user_query self in
  let request :=
    {| url := "https://api.groq.com/openai/v1/chat/completions";
       headers :=
         [("Authorization", "Bearer " ++ match GROQ_API_KEY world with
                   | Some key => key
                   | None => "None"
                   end);
          ("Content-Type", "application/json")];
       payload :=
         PyDict
           [("model", PyStr "llama3-8b-8192");
            ("messages",
             PyList
               [PyDict
                  [("role", PyStr "system");
                   ("content",
                    PyStr "You are a helpful assistant for summarizing video content.")];
                PyDict [("role", PyStr "user"); ("content", PyStr prompt)]]);
            ("temperature", PyFloat "0.5")] |} in
  spec_matches Summary (user_query self) ->
  requests_post world tr request = inr response ->
  status_code response <> 200%Z ->
  exists result : string,
    process_query world self tr
    = (inr (PyDict [("type", PyStr "summary"); ("result", PyStr result)]),
       (tr ++ [EvPost request])%list)
    /\ result = "Groq API Error: " ++ Str.of_int (status_code response)
                ++ " - " ++ text response
    /\ ((100 <= status_code response <= 999)%Z ->
        result = "Groq API Error: " ++ decimal3 (status_code response)
                 ++ " - " ++ text response)
    /\ Str.Substring (Str.of_int (status_code response)) result
    /\ Str.Substring (text response) result.
Proof.
  intros prompt request Hm Hpost Hstatus.
  assert (Hany : Str.any_in summary_keywords (Str.lower (user_query self))
                 = true)
    by exact (proj1 (matches_iff Summary _) Hm).
  exists ("Groq API Error: " ++ Str.of_int (status_code response)
          ++ " - " ++ text response).
  split; [| split; [reflexivity | split; [| split]]].
  - exec. rewrite Hany.
    change {| url := _; headers := _; payload := _ |} with request.
    rewrite Hpost. apply Z.eqb_neq in Hstatus. now rewrite Hstatus.
  - intros Hrange. now rewrite (of_int_decimal3 _ Hrange).
  - exists "Groq API Error: ", (" - " ++ text response). reflexivity.
  - exists ("Groq API Error: " ++ Str.of_int (status_code response) ++ " - "), "".
    now rewrite append_nil_r, !append_assoc.
Qed.

Lemma completion_error_is_embedded_witness :
  process_query world_429
    {| video_path := "/tmp/tmpab12cd.mp4";
       user_query := "Give me the key points";
       transcript := " Hello and welcome to the show." |} []
  = (inr (PyDict [("type", PyStr "summary");
                  ("result", PyStr "Groq API Error: 429 - Rate limit reached")]),
     [EvPost
        {| url := "https://api.groq.com/openai/v1/chat/completions";
           headers :=
             [("Authorization", "Bearer gsk_test");
              ("Content-Type", "application/json")];
           payload :=
             PyDict
               [("model", PyStr "llama3-8b-8192");
                ("messages",
                 PyList
                   [PyDict
                      [("role", PyStr "system");
                       ("content",
                        PyStr "You are a helpful assistant for summarizing video content.")];
                    PyDict [("role", PyStr "user"); ("content", PyStr "Here is the transcript of a video:

 Hello and welcome to the show.

Now respond to the following request:
Give me the key points")]]);
                ("temperature", PyFloat "0.5")] |}])
  /\ process_query world_503
       {| video_path := "/tmp/tmpab12cd.mp4";
          user_query := "Give me the key points";
          transcript := " Hello and welcome to the show." |} []
     = (inr (PyDict
               [("type", PyStr "summary");
                ("result",
                 PyStr "Groq API Error: 503 - <html>Service Unavailable</html>")]),
        [EvPost
           {| url := "https://api.groq.com/openai/v1/chat/completions";
              headers :=
                [("Authorization", "Bearer gsk_test");
                 ("Content-Type", "application/json")];
              payload :=
                PyDict
                  [("model", PyStr "llama3-8b-8192");
                   ("messages",
                    PyList
                      [PyDict
                         [("role", PyStr "system");
                          ("content",
                           PyStr "You are a helpful assistant for summarizing video content.")];
                       PyDict [("role", PyStr "user"); ("content", PyStr "Here is the transcript of a video:

 Hello and welcome to the show.

Now respond to the following request:
Give me the key points")]]);
                   ("temperature", PyFloat "0.5")] |}]).
Proof.
  assert (H : spec_matches Summary "Give me the key points").
  { exists "key points". split; [simpl; tauto |].
    exists "key points". split; [apply eq_ci_lower; reflexivity |].
    exists "Give me the ", "". reflexivity. }
  split.
  - destruct (completion_error_is_embedded world_429
                {| video_path := "/tmp/tmpab12cd.mp4";
                   user_query := "Give me the key points";
                   transcript := " Hello and welcome to the show." |} []
                {| status_code := 429; text := "Rate limit reached";
                   json := inl (Exn "JSONDecodeError"
                                    "Expecting value: line 1 column 1 (char 0)") |}
                H eq_refl)
      as (result & Hrun & Hresult & _); [simpl; lia |].
    rewrite Hrun, Hresult. reflexivity.
  - destruct (completion_error_is_embedded world_503
                {| video_path := "/tmp/tmpab12cd.mp4";
                   user_query := "Give me the key points";
                   transcript := " Hello and welcome to the show." |} []
                {| status_code := 503;
                   text := "<html>Service Unavailable</html>";
                   json := inl (Exn "JSONDecodeError"
                                    "Expecting value: line 1 column 1 (char 0)") |}
                H eq_refl)
      as (result & Hrun & Hresult & _); [simpl; lia |].
    rewrite Hrun, Hresult. reflexivity.
Defined.

(** ** The request boundary *)

Lemma error_envelope_is_envelope (e : exn) : is_error_envelope (error_envelope e).
Proof. split; [reflexivity | now exists (exn_str e)]. Qed.

Lemma dispatch_run (world : World) (i : Intent) (self : VideoAgent) (tr : trace) :
  dispatch world i self tr
  = match i with
    | Summary =>
        let request := groq_request world (summarize_prompt self) default_model in
        (match requests_post world tr request with
         | inl e => inl e
         | inr response =>
             if (status_code response =? 200)%Z then
               match message_content response with
               | inl e => inl e
               | inr content => inr (analysis "summary" content)
               end
             else
               inr (analysis "summary"
                      (PyStr ("Groq API Error: "
                              ++ Str.of_int (status_code response)
                              ++ " - " ++ text response)))
         end,
         (tr ++ [EvPost request])%list)
    | _ => dispatch world i self tr
    end.
Proof.
  destruct i; try reflexivity.
  simpl. rewrite mbind_run, query_groq_run.
  destruct (requests_post world tr _) as [e|response]; [reflexivity |].
  destruct (status_code response =? 200)%Z; [| reflexivity].
  destruct (message_content response); reflexivity.
Qed.

(** The endpoint, call by call. *)
Lemma analyze_video_run (world : World) (video : UploadFile) (q : string)
      (tr : trace) :
  analyze_video world video q tr
  = match save_upload world tr video with
    | inl e => (inr (error_envelope e), (tr ++ [EvSaveUpload video])%list)
    | inr p =>
        match whisper_transcribe world (tr ++ [EvSaveUpload video])%list p with
        | inl e =>
            (inr (error_envelope e),
             (tr ++ [EvSaveUpload video; EvTranscribe p])%list)
        | inr t =>
            match process_query world
                    {| video_path := p; user_query := q; transcript := t |}
                    (tr ++ [EvSaveUpload video; EvTranscribe p])%list with
            | (inl e, tr3) => (inr (error_envelope e), tr3)
            | (inr result, tr3) =>
                (inr match path_unlink world tr3 p with
                     | inl e => error_envelope e
                     | inr _ => Returned (PyDict [("analysis", result)])
                     end,
                 (tr3 ++ [EvUnlink p])%list)
            end
        end
    end.
Proof.
  unfold analyze_video, try_except, VideoAgent_init, transcribe_audio.
  rewrite !mbind_run. unfold call at 1.
  destruct (save_upload world tr video) as [e|p]; [reflexivity |].
  rewrite !mbind_run. unfold call at 1.
  destruct (whisper_transcribe world _ p) as [e|t]; rewrite <- app_assoc;
    [reflexivity |].
  simpl app. unfold ret at 1. rewrite !mbind_run.
  destruct (process_query world _ _) as [[e|result] tr3]; [reflexivity |].
  rewrite mbind_run. unfold call.
  destruct (path_unlink world tr3 p); reflexivity.
Qed.

(** Splits [H : l = pre ++ ev :: post] for an explicit list [l] of at most
    four events. *)
Ltac split_events H pre :=
  destruct pre as [|? [|? [|? [|? [|? pre]]]]];
  simpl in H; try discriminate H;
  inversion H; subst; clear H.

Ltac solve_raised :=
  match goal with
  | Hr : raised _ _ _ = Some _ |- _ =>
      simpl in Hr; rewrite ?app_nil_r in Hr;
      repeat match goal with
             | E : _ = inl _ |- _ => rewrite E in Hr
             | E : _ = inr _ |- _ => rewrite E in Hr
             end;
      first [ discriminate Hr
            | injection Hr as <-; split; reflexivity ]
  end.

(** The request of the trace is the one answered with [response]. *)
Ltac same_response H Hp pre :=
  split_events H pre;
  simpl in Hp;
  match goal with
  | Hpost : requests_post _ _ _ = inr _,
    Hstatus : (status_code _ =? 200)%Z = _ |- _ =>
      rewrite Hpost in Hp; injection Hp as <-; rewrite Hstatus
  end.

(** The outcome of reading the body of [response], from the outcomes of
    the single subscripts. *)
Ltac read_body response H :=
  eassert (H : message_content response = _)
    by (unfold message_content;
        repeat match goal with
               | E : ?l = _ |- context [?l] => rewrite E; cbn [Py.bind]
               end;
        reflexivity).

(** C9, as amended.  The endpoint [/analyze] never raises: it always
    returns a reply.  No collaborator is called twice.  An exception raised
    by any call (saving the upload, the transcription, the completion
    request, removing the file), or by reading a 200 answer of the
    completion service, ends the request with the envelope
    [{error: str(e)}] and status 500.  A status other than 200 is not an
    exception: the request goes on, and unless removing the file raises,
    the reply is the analysis with the error text as result, sent with
    status 200. *)
Theorem analyze_video_catches_exceptions
        (world : World) (video : UploadFile) (q : string) (tr : trace) :
  exists (r : reply) (evs : list event),
    analyze_video world video q tr = (inr r, (tr ++ evs)%list)
    /\ NoDup (map kind evs)
    /\ (forall pre ev post e,
          evs = (pre ++ ev :: post)%list ->
          raised world (tr ++ pre)%list ev = Some e ->
          r = JSONResponse 500 (PyDict [("error", PyStr (exn_str e))])
          /\ post = [])
    /\ (forall pre request post response,
          evs = (pre ++ EvPost request :: post)%list ->
          requests_post world (tr ++ pre)%list request = inr response ->
          if (status_code response =? 200)%Z then
            forall e, message_content response = inl e ->
                      r = JSONResponse 500
                            (PyDict [("error", PyStr (exn_str e))])
                      /\ post = []
          else
            exists p, post = [EvUnlink p]
              /\ match path_unlink world (tr ++ pre ++ [EvPost request])%list p with
                 | inl e =>
                     r = JSONResponse 500
                           (PyDict [("error", PyStr (exn_str e))])
                 | inr _ =>
                     r = Returned
                           (PyDict
                              [("analysis",
                                PyDict
                                  [("type", PyStr "summary");
                                   ("result",
                                    PyStr ("Groq API Error: "
                                           ++ Str.of_int (status_code response)
                                           ++ " - " ++ text response))])])
                     /\ http_status r = 200%Z
                 end).
Proof.
  exec.
  destruct (save_upload world tr video) as [e|p] eqn:Hsave.
  { eexists; exists [EvSaveUpload video].
    split; [reflexivity |]. split; [repeat constructor; simpl; tauto |].
    split.
    - intros pre ev post e0 H Hr. split_events H pre. solve_raised.
    - intros pre request post response H. split_events H pre. }
  destruct (whisper_transcribe world _ p) as [e|t] eqn:Hwhisper; enter.
  { eexists; exists [EvSaveUpload video; EvTranscribe p].
    split; [reflexivity |].
    split; [repeat constructor; simpl; intuition discriminate |].
    split.
    - intros pre ev post e0 H Hr. split_events H pre; solve_raised.
    - intros pre request post response H. split_events H pre. }
  cbn [user_query transcript].
  assert (Hnodup3 : forall p',
             NoDup (map kind [EvSaveUpload video; EvTranscribe p; EvUnlink p'])).
  { intros p'. repeat constructor; simpl; intuition discriminate. }
  assert (Hnodup4 : forall rq p',
             NoDup (map kind [EvSaveUpload video; EvTranscribe p; EvPost rq;
                              EvUnlink p'])).
  { intros rq p'. repeat constructor; simpl; intuition discriminate. }
  destruct (Str.any_in summary_keywords (Str.lower q)); enter.
  - (* Summary: the completion service is called *)
    change {| url := _; headers := _; payload := _ |}
      with (groq_request world
              (summarize_prompt
                 {| video_path := p; user_query := q; transcript := t |})
              default_model).
    destruct (requests_post world _ _) as [e|response] eqn:Hpost; enter.
    { eexists; eexists [_; _; _]. split; [reflexivity |].
      split; [repeat constructor; simpl; intuition discriminate |]. split.
      - intros pre ev post e0 H Hr. split_events H pre; solve_raised.
      - intros pre request post response H Hp. split_events H pre.
        simpl in Hp. rewrite Hpost in Hp. discriminate Hp. }
    destruct (status_code response =? 200)%Z eqn:Hstatus; enter.
    + (* 200: the body is read, subscript by subscript *)
      destruct (json response) as [e|body] eqn:Hj; enter;
        [| destruct (getitem body _) as [e|choices] eqn:H1; enter;
           [| destruct (getitem choices _) as [e|choice] eqn:H2; enter;
              [| destruct (getitem choice _) as [e|message] eqn:H3; enter;
                 [| destruct (getitem message _) as [e|content] eqn:H4;
                    enter]]]];
        read_body response Hcontent.
      1-5: (eexists; eexists [_; _; _]; split; [reflexivity |];
            split; [repeat constructor; simpl; intuition discriminate |]; split;
            [ intros pre ev post e0 H Hr; split_events H pre; solve_raised
            | intros pre request post response' H Hp; same_response H Hp pre;
              intros e0; rewrite Hcontent; intros [= <-]; split; reflexivity ]).
      destruct (path_unlink world _ p) as [e|u] eqn:Hunlink; enter;
        (eexists; eexists [_; _; _; _]; split; [reflexivity |];
         split; [apply Hnodup4 |]; split;
         [ intros pre ev post e0 H Hr; split_events H pre; solve_raised
         | intros pre request post response' H Hp; same_response H Hp pre;
           intros e0; rewrite Hcontent; discriminate ]).
    + (* another status: the error text is the result *)
      destruct (path_unlink world _ p) as [e|u] eqn:Hunlink; enter;
        (eexists; eexists [_; _; _; _]; split; [reflexivity |];
         split; [apply Hnodup4 |]; split;
         [ intros pre ev post e0 H Hr; split_events H pre; solve_raised
         | intros pre request post response' H Hp; same_response H Hp pre;
           exists p; split; [reflexivity |];
           simpl app; rewrite Hunlink; repeat split ]).
  - (* the other intents: nothing is called *)
    destruct (Str.any_in web_search_keywords (Str.lower q)); enter;
      [| destruct (Str.any_in fact_check_keywords (Str.lower q)); enter];
      (destruct (path_unlink world _ p) as [e|u] eqn:Hunlink; enter;
       (eexists; eexists [_; _; _]; split; [reflexivity |];
        split; [apply Hnodup3 |]; split;
        [ intros pre ev post e0 H Hr; split_events H pre; solve_raised
        | intros pre request post response' H Hp; split_events H pre ])).
Qed.

(** C9, the claim as worded, fails.  With a completion service that
    answers 429, the request "give me a summary" is served with status 200
    and an analysis whose result holds the error text, although the
    completion service failed. *)
Lemma error_envelope_policy_counterexample :
  analyze_video world_429 [] "give me a summary" []
  = (inr (Returned
            (PyDict
               [("analysis",
                 analysis "summary"
                   (PyStr "Groq API Error: 429 - Rate limit reached"))])),
     [EvSaveUpload [];
      EvTranscribe "/tmp/tmpab12cd.mp4";
      EvPost (groq_request world_429
                (summarize_prompt
                   (agent "give me a summary" " Hello and welcome to the show."))
                default_model);
      EvUnlink "/tmp/tmpab12cd.mp4"])
  /\ ~ error_envelope_policy.
Proof.
  split; [reflexivity |].
  intros policy.
  destruct (policy world_429 [] "give me a summary" []
              (Returned
                 (PyDict
                    [("analysis",
                      analysis "summary"
                        (PyStr "Groq API Error: 429 - Rate limit reached"))]))
              [EvSaveUpload []; EvTranscribe "/tmp/tmpab12cd.mp4"]
              (EvPost (groq_request world_429
                         (summarize_prompt
                            (agent "give me a summary"
                                   " Hello and welcome to the show."))
                         default_model))
              [EvUnlink "/tmp/tmpab12cd.mp4"])
    as [Hstatus _].
  - reflexivity.
  - simpl. discriminate.
  - simpl in Hstatus. discriminate Hstatus.
Qed.

(** X1.  The sibling endpoint [/transcribe] has the same boundary: it
    never raises, calls nothing twice, and answers an exception raised by
    any call with the envelope [{error: str(e)}] and status 500. *)
Lemma transcribe_video_catches_exceptions
      (world : World) (video : UploadFile) (tr : trace) :
  exists (r : reply) (evs : list event),
    transcribe_video world video tr = (inr r, (tr ++ evs)%list)
    /\ NoDup (map kind evs)
    /\ forall pre ev post e,
         evs = (pre ++ ev :: post)%list ->
         raised world (tr ++ pre)%list ev = Some e ->
         r = JSONResponse 500 (PyDict [("error", PyStr (exn_str e))])
         /\ post = [].
Proof.
  unfold transcribe_video, try_except, transcribe_audio.
  rewrite !mbind_run. unfold call at 1.
  destruct (save_upload world tr video) as [e|p] eqn:Hsave.
  { eexists; exists [EvSaveUpload video]. split; [reflexivity |].
    split; [repeat constructor; simpl; tauto |].
    intros pre ev post e0 H Hr. split_events H pre. solve_raised. }
  rewrite !mbind_run. unfold call at 1.
  destruct (whisper_transcribe world _ p) as [e|t] eqn:Hwhisper;
    rewrite <- app_assoc; simpl app.
  { eexists; eexists [_; _]. split; [reflexivity |].
    split; [repeat constructor; simpl; intuition discriminate |].
    intros pre ev post e0 H Hr. split_events H pre; solve_raised. }
  rewrite mbind_run. unfold call.
  destruct (path_unlink world _ p) as [e|u] eqn:Hunlink;
    rewrite <- app_assoc; simpl app;
    (eexists; eexists [_; _; _]; split; [reflexivity |];
     split; [repeat constructor; simpl; intuition discriminate |];
     intros pre ev post e0 H Hr; split_events H pre; solve_raised).
Qed.

(** The answer of a well-formed completion is the message text; a body
    without choices raises. *)
Example message_content_ok :
  message_content {| status_code := 200; text := "";
                     json := inr (completion_body "Hi.") |}
  = inr (PyStr "Hi.").
Proof. reflexivity. Qed.

Example message_content_no_choices :
  message_content {| status_code := 200; text := "{}"; json := inr (PyDict []) |}
  = inl (Exn "KeyError" "'choices'")
  /\ message_content {| status_code := 200; text := "";
                        json := inr (PyDict [("choices", PyList [])]) |}
     = inl (Exn "IndexError" "list index out of range").
Proof. split; reflexivity. Qed.

(** A transcription that raises is answered with the envelope, and the
    completion service is never reached. *)
Example analyze_video_bad_media :
  analyze_video world_bad_media [] "give me a summary" []
  = (inr (JSONResponse 500 (PyDict [("error", PyStr "Failed to load audio")])),
     [EvSaveUpload []; EvTranscribe "/tmp/tmpab12cd.mp4"]).
Proof. reflexivity. Qed.

(** * Further properties of the code *)

(** ** Containment *)

Lemma Substring_trans (a b c : string) :
  Str.Substring a b -> Str.Substring b c -> Str.Substring a c.
Proof.
  intros (p1 & s1 & ->) (p2 & s2 & ->).
  exists (p2 ++ p1), (s1 ++ s2). now rewrite !append_assoc.
Qed.

Lemma Substring_extend (a q pre post : string) :
  Str.Substring a q -> Str.Substring a (pre ++ q ++ post).
Proof.
  intros H. apply (Substring_trans a q); [exact H | now exists pre, post].
Qed.

Lemma any_in_extend (kws : list string) (q pre post : string) :
  Str.any_in kws (Str.lower q) = true ->
  Str.any_in kws (Str.lower (pre ++ q ++ post)) = true.
Proof.
  rewrite !any_in_spec. intros (kw & Hin & H). exists kw. split; [exact Hin |].
  rewrite !lower_app. now apply Substring_extend.
Qed.

Lemma substring_all (s : string) : substring 0 (String.length s) s = s.
Proof. induction s as [|c s IH]; simpl; [reflexivity | now rewrite IH]. Qed.

Lemma length_append (a b : string) :
  String.length (a ++ b) = String.length a + String.length b.
Proof. induction a as [|c a IH]; simpl; [reflexivity | now rewrite IH]. Qed.

(** ** The router *)

(** X13.  Text added before or after a query never lowers its category:
    the enlarged query is routed to the same intent or to one tested
    earlier.  In particular a Summary query stays a Summary query. *)
Theorem route_monotone_under_extension
        (world : World) (p t p' t' q pre post : string) :
  let a := {| video_path := p; user_query := q; transcript := t |} in
  let a' := {| video_path := p'; user_query := pre ++ q ++ post;
               transcript := t' |} in
  exists i j : Intent,
    spec_chosen i q /\ spec_chosen j (pre ++ q ++ post)
    /\ process_query world a = dispatch world i a
    /\ process_query world a' = dispatch world j a'
    /\ rank j <= rank i.
Proof.
  intros a a'. exists (spec_route q), (spec_route (pre ++ q ++ post)).
  split; [now apply spec_route_chosen |].
  split; [now apply spec_route_chosen |].
  split; [apply (process_query_dispatch world a) |].
  split; [apply (process_query_dispatch world a') |].
  unfold spec_route. cbv zeta beta.
  pose proof (any_in_extend (keywords Summary) q pre post) as Hs.
  pose proof (any_in_extend (keywords WebSearch) q pre post) as Hw.
  pose proof (any_in_extend (keywords FactCheck) q pre post) as Hf.
  destruct (Str.any_in (keywords Summary) (Str.lower q));
    destruct (Str.any_in (keywords WebSearch) (Str.lower q));
    destruct (Str.any_in (keywords FactCheck) (Str.lower q));
    try rewrite Hs by reflexivity;
    try rewrite Hw by reflexivity;
    try rewrite Hf by reflexivity;
    destruct (Str.any_in (keywords Summary) (Str.lower (pre ++ q ++ post)));
    destruct (Str.any_in (keywords WebSearch) (Str.lower (pre ++ q ++ post)));
    destruct (Str.any_in (keywords FactCheck) (Str.lower (pre ++ q ++ post)));
    simpl; lia.
Qed.

(** X14.  The router reads the query only through its lower-casing: two
    queries with the same lower-casing are routed to the same intent. *)
Theorem route_reads_lowercase_only (world : World) (a1 a2 : VideoAgent) :
  Str.lower (user_query a1) = Str.lower (user_query a2) ->
  exists i : Intent,
    spec_chosen i (user_query a1) /\ spec_chosen i (user_query a2)
    /\ process_query world a1 = dispatch world i a1
    /\ process_query world a2 = dispatch world i a2.
Proof.
  intros H. exists (spec_route (user_query a1)).
  assert (Hr : spec_route (user_query a2) = spec_route (user_query a1)).
  { unfold spec_route. cbv zeta beta. now rewrite H. }
  split; [now apply spec_route_chosen |].
  split; [now apply spec_route_chosen |].
  split; [apply process_query_dispatch |].
  rewrite <- Hr. apply process_query_dispatch.
Qed.

Lemma route_reads_lowercase_only_witness :
  Str.lower "Is This TRUE?" = Str.lower "is this true?"
  /\ exists i : Intent,
       spec_chosen i "Is This TRUE?" /\ spec_chosen i "is this true?"
       /\ process_query world_ok (agent "Is This TRUE?" "a")
          = dispatch world_ok i (agent "Is This TRUE?" "a")
       /\ process_query world_ok (agent "is this true?" "b")
          = dispatch world_ok i (agent "is this true?" "b").
Proof.
  split; [reflexivity |].
  apply (route_reads_lowercase_only world_ok (agent "Is This TRUE?" "a")
           (agent "is this true?" "b")).
  reflexivity.
Defined.

(** X15.  The keyword "fact-check" never decides anything: the test of the
    FactCheck branch gives the same answer without it, because "check" is
    part of it. *)
Theorem fact_check_keyword_redundant (s : string) :
  Str.any_in fact_check_keywords s
  = Str.any_in ["verify"; "is this true"; "check"] s.
Proof.
  unfold fact_check_keywords, Str.any_in. cbn [existsb].
  destruct (Str.contains "fact-check" s) eqn:H; [| reflexivity].
  assert (Hc : Str.contains "check" s = true).
  { apply contains_spec. apply (Substring_trans _ "fact-check").
    - now exists "fact-", "".
    - now apply contains_spec. }
  rewrite Hc. cbn [orb]. now rewrite !orb_true_r.
Qed.

(** X16.  The prompt does not tell where the transcript ends: a transcript
    that goes on with the separator and a text [q] gives, with request [q'],
    the very prompt that the plain transcript gives with the request [q]
    followed by the separator and [q']. *)
Theorem summarize_prompt_boundary_forgeable (p1 p2 t q q' : string) :
  t ++ request_separator ++ q <> t
  /\ summarize_prompt
       {| video_path := p1; user_query := q';
          transcript := t ++ request_separator ++ q |}
     = summarize_prompt
         {| video_path := p2; user_query := q ++ request_separator ++ q';
            transcript := t |}.
Proof.
  split.
  - intros H. apply (f_equal String.length) in H.
    rewrite !length_append in H. simpl in H. lia.
  - unfold summarize_prompt, request_separator. simpl transcript.
    simpl user_query. now rewrite !append_assoc.
Qed.

(** X17.  The search link holds the query unchanged after its first 30
    characters, so the query can be read back from the link and two
    queries never share a link. *)
Theorem web_search_query_recoverable (q : string) :
  substring 30 (String.length q) (web_search q) = q
  /\ forall q', web_search q = web_search q' -> q = q'.
Proof.
  split.
  - unfold web_search. simpl. apply substring_all.
  - intros q' H. unfold web_search in H. simpl in H. now injection H.
Qed.

(** ** The completion call *)

Lemma position_head (n : nat) : position 0 (S n) = Some 0.
Proof.
  unfold position. cbn [Z.ltb Z.compare Z.leb andb].
  destruct (0 <? Z.of_nat (S n))%Z eqn:H; [reflexivity |].
  apply Z.ltb_ge in H. lia.
Qed.

(** X8.  The completion call raises in two cases only: the HTTP client
    raised, or the answer had status 200 and its body could not be read as
    a completion.  An answer with any other status never makes it raise.
    Either way exactly one request has gone out. *)
Theorem query_groq_raises_iff
        (world : World) (prompt model : string) (tr tr' : trace) (e : exn) :
  query_groq world prompt model tr = (inl e, tr')
  <-> tr' = (tr ++ [EvPost (groq_request world prompt model)])%list
      /\ (requests_post world tr (groq_request world prompt model) = inl e
          \/ exists response,
               requests_post world tr (groq_request world prompt model)
               = inr response
               /\ status_code response = 200%Z
               /\ message_content response = inl e).
Proof.
  rewrite query_groq_run.
  destruct (requests_post world tr _) as [e0|response].
  - split.
    + intros [= -> <-]. split; [reflexivity | now left].
    + intros (-> & [[= ->] | (r & Hr & _)]); [reflexivity | discriminate].
  - destruct (status_code response =? 200)%Z eqn:Hs.
    + apply Z.eqb_eq in Hs. split.
      * intros [= Hm <-]. split; [reflexivity |]. right. now exists response.
      * intros (-> & [H | (r & [= <-] & _ & Hm)]); [discriminate |].
        now rewrite Hm.
    + apply Z.eqb_neq in Hs. split; [discriminate |].
      intros (_ & [H | (r & [= <-] & H200 & _)]); [discriminate | contradiction].
Qed.

(** X9.  From a 200 answer the completion call returns the content of the
    message of the first choice; further choices, and further keys of the
    body, of the choice and of the message, are not looked at. *)
Theorem query_groq_first_choice
        (world : World) (prompt model : string) (tr : trace)
        (response : Response) (body choice message : list (string * pyobj))
        (others : list pyobj) (content : pyobj) :
  requests_post world tr (groq_request world prompt model) = inr response ->
  status_code response = 200%Z ->
  json response = inr (PyDict body) ->
  lookup "choices" body = Some (PyList (PyDict choice :: others)) ->
  lookup "message" choice = Some (PyDict message) ->
  lookup "content" message = Some content ->
  query_groq world prompt model tr
  = (inr content, (tr ++ [EvPost (groq_request world prompt model)])%list).
Proof.
  intros Hpost Hstatus Hjson Hchoices Hmessage Hcontent.
  rewrite query_groq_run, Hpost, Hstatus. cbn [Z.eqb Pos.eqb].
  unfold message_content. rewrite Hjson. cbn [Py.bind getitem].
  rewrite Hchoices. cbn [Py.bind getitem List.length].
  rewrite position_head. cbn [nth_error Py.bind getitem].
  rewrite Hmessage. cbn [Py.bind getitem]. now rewrite Hcontent.
Qed.

Lemma query_groq_first_choice_witness :
  query_groq world_ok "Say hello." default_model []
  = (inr (PyStr "The host greets the audience."),
     [EvPost (groq_request world_ok "Say hello." default_model)]).
Proof.
  apply (query_groq_first_choice world_ok "Say hello." default_model []
           {| status_code := 200; text := "";
              json := inr (completion_body "The host greets the audience.") |}
           [("id", PyStr "chatcmpl-1");
            ("choices",
             PyList
               [PyDict
                  [("index", PyInt 0);
                   ("message",
                    PyDict [("role", PyStr "assistant");
                            ("content", PyStr "The host greets the audience.")]);
                   ("finish_reason", PyStr "stop")]])]
           [("index", PyInt 0);
            ("message",
             PyDict [("role", PyStr "assistant");
                     ("content", PyStr "The host greets the audience.")]);
            ("finish_reason", PyStr "stop")]
           [("role", PyStr "assistant");
            ("content", PyStr "The host greets the audience.")]
           []); reflexivity.
Defined.

(** X10.  A 200 answer whose body is not a completion makes the call
    raise: the exception of [response.json()] when the body is not JSON, a
    [KeyError] with text ['choices'] when the object has no such key, an
    [IndexError] when the list of choices is empty. *)
Theorem query_groq_malformed_body
        (world : World) (prompt model : string) (tr : trace)
        (response : Response) :
  requests_post world tr (groq_request world prompt model) = inr response ->
  status_code response = 200%Z ->
  let after := (tr ++ [EvPost (groq_request world prompt model)])%list in
  (forall e, json response = inl e ->
             query_groq world prompt model tr = (inl e, after))
  /\ (forall body, json response = inr (PyDict body) ->
                   lookup "choices" body = None ->
                   query_groq world prompt model tr
                   = (inl (Exn "KeyError" "'choices'"), after))
  /\ (forall body, json response = inr (PyDict body) ->
                   lookup "choices" body = Some (PyList []) ->
                   query_groq world prompt model tr
                   = (inl (Exn "IndexError" "list index out of range"), after)).
Proof.
  intros Hpost Hstatus after. subst after.
  rewrite query_groq_run, Hpost, Hstatus. cbn [Z.eqb Pos.eqb].
  unfold message_content. repeat split.
  - intros e ->. reflexivity.
  - intros body -> Hc. cbn [Py.bind getitem]. now rewrite Hc.
  - intros body -> Hc. cbn [Py.bind getitem]. now rewrite Hc.
Qed.

Lemma query_groq_malformed_body_witness :
  query_groq world_empty_body "Say hello." default_model []
  = (inl (Exn "KeyError" "'choices'"),
     [EvPost (groq_request world_empty_body "Say hello." default_model)]).
Proof.
  destruct (query_groq_malformed_body world_empty_body "Say hello."
              default_model []
              {| status_code := 200; text := "{}"; json := inr (PyDict []) |})
    as (_ & Hkey & _); [reflexivity | reflexivity |].
  apply (Hkey []); reflexivity.
Defined.

(** X11.  A missing API key is not noticed before the call: with
    [GROQ_API_KEY] unset the request still goes out, and its header reads
    [Authorization: Bearer None]. *)
Theorem query_groq_unset_key
        (world : World) (prompt model : string) (tr : trace) :
  GROQ_API_KEY world = None ->
  snd (query_groq world prompt model tr)
  = (tr ++ [EvPost (groq_request world prompt model)])%list
  /\ headers (groq_request world prompt model)
     = [("Authorization", "Bearer None"); ("Content-Type", "application/json")].
Proof.
  intros H. rewrite query_groq_run. split; [reflexivity |].
  unfold groq_request. cbn [headers]. now rewrite H.
Qed.

Lemma query_groq_unset_key_witness :
  GROQ_API_KEY world_bad_media = None
  /\ snd (query_groq world_bad_media "Say hello." default_model [])
     = [EvPost (groq_request world_bad_media "Say hello." default_model)]
  /\ headers (groq_request world_bad_media "Say hello." default_model)
     = [("Authorization", "Bearer None"); ("Content-Type", "application/json")].
Proof.
  split; [reflexivity |].
  apply (query_groq_unset_key world_bad_media "Say hello." default_model []).
  reflexivity.
Defined.

(** X12.  The router raises exactly when it has chosen Summary and the
    completion call raises; on every other query it returns. *)
Theorem process_query_raises_iff
        (world : World) (self : VideoAgent) (tr tr' : trace) (e : exn) :
  process_query world self tr = (inl e, tr')
  <-> spec_matches Summary (user_query self)
      /\ query_groq world (summarize_prompt self) default_model tr
         = (inl e, tr').
Proof.
  rewrite process_query_dispatch.
  change (spec_matches Summary (user_query self))
    with (spec_chosen Summary (user_query self)).
  rewrite spec_route_chosen.
  destruct (spec_route (user_query self)) eqn:Hr; simpl; unfold ret;
    try (split; [discriminate | intros [[=] _]]).
  rewrite mbind_run.
  destruct (query_groq world _ _ tr) as [[e0|c] tr0]; split.
  - intros [= -> ->]. now split.
  - now intros (_ & [= -> ->]).
  - discriminate.
  - intros (_ & [=]).
Qed.

(** ** The endpoints *)

(** What the router hands back, and what it has called meanwhile. *)
Lemma process_query_outcome (world : World) (self : VideoAgent) (tr : trace) :
  let i := spec_route (user_query self) in
  let request := groq_request world (summarize_prompt self) default_model in
  exists x mid,
    process_query world self tr = (x, (tr ++ mid)%list)
    /\ ((i = Summary /\ mid = [EvPost request]
         /\ forall res, x = inr res -> exists c, res = analysis (tag i) c)
        \/ (i <> Summary /\ mid = []
            /\ exists s, x = inr (analysis (tag i) (PyStr s)))).
Proof.
  intros i request. subst i request. rewrite process_query_dispatch.
  destruct (spec_route (user_query self)) eqn:Hr.
  - rewrite dispatch_run. cbv zeta.
    eexists; eexists [_]. split; [reflexivity |]. left.
    split; [reflexivity |]. split; [reflexivity |].
    intros res H.
    destruct (requests_post world tr _) as [e|response]; [discriminate |].
    destruct (status_code response =? 200)%Z;
      [destruct (message_content response) as [e|c]; [discriminate |] |];
      injection H as <-; eexists; reflexivity.
  - eexists; exists []. rewrite app_nil_r. split; [reflexivity |]. right.
    split; [discriminate |]. split; [reflexivity |]. eexists; reflexivity.
  - eexists; exists []. rewrite app_nil_r. split; [reflexivity |]. right.
    split; [discriminate |]. split; [reflexivity |]. eexists; reflexivity.
  - eexists; exists []. rewrite app_nil_r. split; [reflexivity |]. right.
    split; [discriminate |]. split; [reflexivity |]. eexists; reflexivity.
Qed.

(** The runs of [/analyze], by the point at which they end. *)
Lemma analyze_video_outcomes
      (world : World) (video : UploadFile) (q : string) (tr : trace) :
  exists (r : reply) (evs : list event),
    analyze_video world video q tr = (inr r, (tr ++ evs)%list)
    /\ ((evs = [EvSaveUpload video]
         /\ exists e, save_upload world tr video = inl e /\ r = error_envelope e)
        \/ exists p,
             save_upload world tr video = inr p
             /\ ((evs = [EvSaveUpload video; EvTranscribe p]
                  /\ exists e, r = error_envelope e)
                 \/ (exists request,
                       spec_route q = Summary
                       /\ evs = [EvSaveUpload video; EvTranscribe p;
                                 EvPost request]
                       /\ exists e, r = error_envelope e)
                 \/ (exists request,
                       spec_route q = Summary
                       /\ evs = [EvSaveUpload video; EvTranscribe p;
                                 EvPost request; EvUnlink p]
                       /\ ((exists e, r = error_envelope e)
                           \/ exists c,
                                r = Returned
                                      (PyDict
                                         [("analysis",
                                           analysis (tag (spec_route q)) c)])))
                 \/ (spec_route q <> Summary
                     /\ evs = [EvSaveUpload video; EvTranscribe p; EvUnlink p]
                     /\ ((exists e, r = error_envelope e)
                         \/ exists s,
                              r = Returned
                                    (PyDict
                                       [("analysis",
                                         analysis (tag (spec_route q))
                                                  (PyStr s))]))))).
Proof.
  rewrite analyze_video_run.
  destruct (save_upload world tr video) as [e|p].
  { eexists; eexists. split; [reflexivity |]. left.
    split; [reflexivity |]. now exists e. }
  destruct (whisper_transcribe world _ p) as [e|t].
  { eexists; eexists. split; [reflexivity |]. right. exists p.
    split; [reflexivity |]. left. split; [reflexivity |]. now exists e. }
  destruct (process_query_outcome world
              {| video_path := p; user_query := q; transcript := t |}
              (tr ++ [EvSaveUpload video; EvTranscribe p])%list)
    as (x & mid & Hrun & Hcases).
  cbv zeta in Hcases. simpl user_query in Hcases. rewrite Hrun.
  destruct Hcases as [(Hi & -> & Hres) | (Hi & -> & s & ->)].
  - rewrite <- app_assoc. simpl app. destruct x as [e|res].
    + eexists; eexists. split; [reflexivity |]. right. exists p.
      split; [reflexivity |]. right. left. eexists.
      split; [exact Hi |]. split; [reflexivity |]. now exists e.
    + destruct (Hres res eq_refl) as (c & ->).
      rewrite <- app_assoc. simpl app.
      eexists; eexists. split; [reflexivity |]. right. exists p.
      split; [reflexivity |]. right. right. left. eexists.
      split; [exact Hi |]. split; [reflexivity |].
      destruct (path_unlink world _ p) as [e|u];
        [left; now exists e | right; now exists c].
  - rewrite app_nil_r, <- app_assoc. simpl app.
    eexists; eexists. split; [reflexivity |]. right. exists p.
    split; [reflexivity |]. right. right. right.
    split; [exact Hi |]. split; [reflexivity |].
    destruct (path_unlink world _ p) as [e|u];
      [left; now exists e | right; now exists s].
Qed.

(** X3.  Every reply of [/analyze] has one of two shapes: the envelope
    [{"error": str(e)}] with status 500, or the returned
    [{"analysis": {"type": t, "result": r}}] where [t] is the tag of the
    intent the query is routed to.  The latter is sent with status 200 when
    [r] can be rendered as JSON, as it always can outside the Summary
    branch, where it is a string; otherwise the server answers 500. *)
Theorem analyze_video_reply_shape
        (world : World) (video : UploadFile) (q : string) (tr : trace) :
  exists (r : reply) (tr' : trace),
    analyze_video world video q tr = (inr r, tr')
    /\ ((http_status r = 500%Z
         /\ exists e,
              r = JSONResponse 500 (PyDict [("error", PyStr (exn_str e))]))
        \/ exists i c,
             spec_chosen i q
             /\ r = Returned
                      (PyDict
                         [("analysis",
                           PyDict [("type", PyStr (tag i)); ("result", c)])])
             /\ http_status r = (if json_compliant c then 200 else 500)%Z
             /\ (i <> Summary -> exists s, c = PyStr s)).
Proof.
  assert (Hroute : forall bs bw bf i,
             Str.any_in summary_keywords (Str.lower q) = bs ->
             Str.any_in web_search_keywords (Str.lower q) = bw ->
             Str.any_in fact_check_keywords (Str.lower q) = bf ->
             (if bs then Summary else if bw then WebSearch
              else if bf then FactCheck else Unknown) = i ->
             spec_chosen i q).
  { intros bs bw bf i Hs Hw Hf <-. apply spec_route_chosen.
    unfold spec_route. cbv zeta beta.
    change (keywords Summary) with summary_keywords.
    change (keywords WebSearch) with web_search_keywords.
    change (keywords FactCheck) with fact_check_keywords.
    now rewrite Hs, Hw, Hf. }
  assert (Hstatus : forall t c,
             http_status
               (Returned
                  (PyDict
                     [("analysis", PyDict [("type", PyStr t); ("result", c)])]))
             = (if json_compliant c then 200 else 500)%Z).
  { intros t c. unfold http_status. simpl json_compliant.
    now rewrite !andb_true_r. }
  exec.
  destruct (save_upload world tr video) as [e|p]; enter;
    [eexists; eexists; split; [reflexivity |]; left;
     split; [reflexivity | eexists; reflexivity] |].
  destruct (whisper_transcribe world _ p) as [e|t]; enter;
    [eexists; eexists; split; [reflexivity |]; left;
     split; [reflexivity | eexists; reflexivity] |].
  cbn [user_query transcript].
  destruct (Str.any_in summary_keywords (Str.lower q)) eqn:Hs; enter;
    [| destruct (Str.any_in web_search_keywords (Str.lower q)) eqn:Hw; enter;
       [| destruct (Str.any_in fact_check_keywords (Str.lower q)) eqn:Hf;
          enter]].
  - (* Summary *)
    destruct (requests_post world _ _) as [e|response]; enter;
      [eexists; eexists; split; [reflexivity |]; left;
       split; [reflexivity | eexists; reflexivity] |].
    destruct (status_code response =? 200)%Z; enter;
      [ destruct (json response) as [e|body]; enter;
        [| destruct (getitem body _) as [e|choices]; enter;
           [| destruct (getitem choices _) as [e|choice]; enter;
              [| destruct (getitem choice _) as [e|message]; enter;
                 [| destruct (getitem message _) as [e|content]; enter;
                    [| destruct (path_unlink world _ p) as [e|u]; enter]]]]]
      | destruct (path_unlink world _ p) as [e|u]; enter ];
      (eexists; eexists; split; [reflexivity |]);
      first [ left; split; [reflexivity | eexists; reflexivity]
            | right; exists Summary; eexists;
              split; [eapply Hroute; reflexivity |];
              split; [reflexivity |]; split; [apply Hstatus | congruence] ].
  - destruct (path_unlink world _ p) as [e|u]; enter;
      (eexists; eexists; split; [reflexivity |]);
      [ left; split; [reflexivity | eexists; reflexivity]
      | right; exists WebSearch; eexists;
        split; [eapply Hroute; reflexivity |];
        split; [reflexivity |]; split; [apply Hstatus | eexists; reflexivity] ].
  - destruct (path_unlink world _ p) as [e|u]; enter;
      (eexists; eexists; split; [reflexivity |]);
      [ left; split; [reflexivity | eexists; reflexivity]
      | right; exists FactCheck; eexists;
        split; [eapply Hroute; reflexivity |];
        split; [reflexivity |]; split; [apply Hstatus | eexists; reflexivity] ].
  - destruct (path_unlink world _ p) as [e|u]; enter;
      (eexists; eexists; split; [reflexivity |]);
      [ left; split; [reflexivity | eexists; reflexivity]
      | right; exists Unknown; eexists;
        split; [eapply Hroute; reflexivity |];
        split; [reflexivity |]; split; [apply Hstatus | eexists; reflexivity] ].
Qed.

(** A completion whose content is a float that is no number is handed back
    by the endpoint and answered with status 500 by the server. *)
Example analyze_video_nan_content :
  http_status
    (Returned
       (PyDict [("analysis",
                 PyDict [("type", PyStr "summary"); ("result", PyFloat "nan")])]))
  = 500%Z.
Proof. reflexivity. Qed.

(** X4.  A request to [/analyze] calls the outside in a fixed order: the
    upload is saved, then transcribed, then, for a Summary query only, one
    completion request is sent, then the file is removed; the run may stop
    after any of these.  The video is transcribed whatever the query is,
    and the completion service is never called for another intent. *)
Theorem analyze_video_call_order
        (world : World) (video : UploadFile) (q : string) (tr : trace) :
  exists (r : reply) (evs : list event),
    analyze_video world video q tr = (inr r, (tr ++ evs)%list)
    /\ In (map kind evs) analyze_call_orders
    /\ (In Post (map kind evs) -> spec_matches Summary q)
    /\ (http_status r = 200%Z -> In Transcribe (map kind evs)).
Proof.
  destruct (analyze_video_outcomes world video q tr) as (r & evs & Hrun & H).
  exists r, evs. split; [exact Hrun |].
  assert (Hsum : spec_route q = Summary -> spec_matches Summary q).
  { intros Hq. now apply (spec_route_chosen q Summary). }
  destruct H as [(-> & e & _ & ->) | (p & _ & H)].
  { simpl; intuition discriminate. }
  destruct H as [(-> & e & ->) | [(rq & Hq & -> & e & ->)
                 | [(rq & Hq & -> & H) | (Hq & -> & H)]]];
    simpl; intuition discriminate.
Qed.

(** X5.  The only file [/analyze] ever removes is the temporary file it has
    written, and removing it is the last thing it does; a reply with
    status 200 is sent only after the file has been removed. *)
Theorem analyze_video_removes_own_file
        (world : World) (video : UploadFile) (q : string) (tr : trace) :
  exists (r : reply) (evs : list event),
    analyze_video world video q tr = (inr r, (tr ++ evs)%list)
    /\ (forall pre p' post,
          evs = (pre ++ EvUnlink p' :: post)%list ->
          save_upload world tr video = inr p' /\ post = [])
    /\ (http_status r = 200%Z ->
        exists pre p, save_upload world tr video = inr p
                      /\ evs = (pre ++ [EvUnlink p])%list).
Proof.
  destruct (analyze_video_outcomes world video q tr) as (r & evs & Hrun & H).
  exists r, evs. split; [exact Hrun |].
  destruct H as [(-> & e & _ & ->) | (p & Hsave & H)].
  { split; [| discriminate].
    intros pre p' post Hs. split_events Hs pre. }
  destruct H as [(-> & e & ->) | [(rq & Hq & -> & e & ->)
                 | [(rq & Hq & -> & H) | (Hq & -> & H)]]].
  - split; [| discriminate]. intros pre p' post Hs. split_events Hs pre.
  - split; [| discriminate]. intros pre p' post Hs. split_events Hs pre.
  - split.
    + intros pre p' post Hs. split_events Hs pre. now split.
    + intros _. exists [EvSaveUpload video; EvTranscribe p; EvPost rq], p.
      now split.
  - split.
    + intros pre p' post Hs. split_events Hs pre. now split.
    + intros _. exists [EvSaveUpload video; EvTranscribe p], p. now split.
Qed.

(** X6.  A Summary request, end to end: when the upload is saved as [p],
    Whisper reads [t] from [p], the completion service answers 200 with a
    readable content and the file can be removed, the reply is the analysis
    with type "summary" and that content, and the one completion request
    carried, as user message, the prompt made of [t], the transcript of
    that very file, and of the query. *)
Theorem analyze_video_summary_end_to_end
        (world : World) (video : UploadFile) (q : string) (tr : trace)
        (p t : string) (response : Response)
        (body choices choice message content : pyobj) (u : unit) :
  let prompt := "Here is the transcript of a video:

" ++ t ++ "

Now respond to the following request:
" ++ q in
  let request :=
    {| url := "https://api.groq.com/openai/v1/chat/completions";
       headers :=
         [("Authorization", "Bearer " ++ match GROQ_API_KEY world with
                   | Some key => key
                   | None => "None"
                   end);
          ("Content-Type", "application/json")];
       payload :=
         PyDict
           [("model", PyStr "llama3-8b-8192");
            ("messages",
             PyList
               [PyDict
                  [("role", PyStr "system");
                   ("content",
                    PyStr "You are a helpful assistant for summarizing video content.")];
                PyDict [("role", PyStr "user"); ("content", PyStr prompt)]]);
            ("temperature", PyFloat "0.5")] |} in
  spec_matches Summary q ->
  save_upload world tr video = inr p ->
  whisper_transcribe world (tr ++ [EvSaveUpload video])%list p = inr t ->
  requests_post world (tr ++ [EvSaveUpload video; EvTranscribe p])%list request
  = inr response ->
  status_code response = 200%Z ->
  json response = inr body ->
  getitem body (KStr "choices") = inr choices ->
  getitem choices (KInt 0) = inr choice ->
  getitem choice (KStr "message") = inr message ->
  getitem message (KStr "content") = inr content ->
  path_unlink world
    (tr ++ [EvSaveUpload video; EvTranscribe p; EvPost request])%list p
  = inr u ->
  analyze_video world video q tr
  = (inr (Returned
            (PyDict
               [("analysis",
                 PyDict [("type", PyStr "summary"); ("result", content)])])),
     (tr ++ [EvSaveUpload video; EvTranscribe p; EvPost request;
             EvUnlink p])%list).
Proof.
  intros prompt request Hq Hsave Hwhisper Hpost Hstatus Hjson H1 H2 H3 H4
         Hunlink.
  assert (Hany : Str.any_in summary_keywords (Str.lower q) = true)
    by exact (proj1 (matches_iff Summary _) Hq).
  exec. rewrite Hsave. enter. rewrite Hwhisper. enter.
  cbn [user_query transcript]. rewrite Hany. enter.
  change {| url := _; headers := _; payload := _ |} with request.
  rewrite Hpost. enter. rewrite Hstatus. cbn [Z.eqb Pos.eqb]. enter.
  rewrite Hjson, H1, H2, H3, H4. enter. rewrite Hunlink. reflexivity.
Qed.

Lemma analyze_video_summary_end_to_end_witness :
  analyze_video world_ok [] "What are the main ideas?" []
  = (inr (Returned
            (PyDict
               [("analysis",
                 PyDict [("type", PyStr "summary");
                         ("result", PyStr "The host greets the audience.")])])),
     [EvSaveUpload [];
      EvTranscribe "/tmp/tmpab12cd.mp4";
      EvPost
        {| url := "https://api.groq.com/openai/v1/chat/completions";
           headers :=
             [("Authorization", "Bearer gsk_test");
              ("Content-Type", "application/json")];
           payload :=
             PyDict
               [("model", PyStr "llama3-8b-8192");
                ("messages",
                 PyList
                   [PyDict
                      [("role", PyStr "system");
                       ("content",
                        PyStr "You are a helpful assistant for summarizing video content.")];
                    PyDict [("role", PyStr "user"); ("content", PyStr "Here is the transcript of a video:

 Hello and welcome to the show.

Now respond to the following request:
What are the main ideas?")]]);
                ("temperature", PyFloat "0.5")] |};
      EvUnlink "/tmp/tmpab12cd.mp4"]).
Proof.
  apply (analyze_video_summary_end_to_end world_ok [] "What are the main ideas?"
           [] "/tmp/tmpab12cd.mp4" " Hello and welcome to the show."
           {| status_code := 200; text := "";
              json := inr (completion_body "The host greets the audience.") |}
           (completion_body "The host greets the audience.")
           (PyList
              [PyDict
                 [("index", PyInt 0);
                  ("message",
                   PyDict [("role", PyStr "assistant");
                           ("content", PyStr "The host greets the audience.")]);
                  ("finish_reason", PyStr "stop")]])
           (PyDict
              [("index", PyInt 0);
               ("message",
                PyDict [("role", PyStr "assistant");
                        ("content", PyStr "The host greets the audience.")]);
               ("finish_reason", PyStr "stop")])
           (PyDict [("role", PyStr "assistant");
                    ("content", PyStr "The host greets the audience.")])
           (PyStr "The host greets the audience.") tt);
    try reflexivity.
  exists "main ideas". split; [simpl; tauto |].
  exists "main ideas". split; [apply eq_ci_lower; reflexivity |].
  exists "What are the ", "?". reflexivity.
Defined.

(** X2.  Every reply of [/transcribe] is either the error envelope or
    [{"transcript": t}], where [t] is what Whisper read from the file the
    upload was saved to, sent after that file was removed; the completion
    service is never called. *)
Theorem transcribe_video_reply_shape
        (world : World) (video : UploadFile) (tr : trace) :
  exists (r : reply) (evs : list event),
    transcribe_video world video tr = (inr r, (tr ++ evs)%list)
    /\ ~ In Post (map kind evs)
    /\ ((http_status r = 500%Z /\ exists e, r = error_envelope e)
        \/ (http_status r = 200%Z
            /\ exists p t,
                 save_upload world tr video = inr p
                 /\ whisper_transcribe world (tr ++ [EvSaveUpload video])%list p
                    = inr t
                 /\ r = Returned (PyDict [("transcript", PyStr t)])
                 /\ evs = [EvSaveUpload video; EvTranscribe p; EvUnlink p])).
Proof.
  unfold transcribe_video, try_except, transcribe_audio.
  rewrite !mbind_run. unfold call at 1.
  destruct (save_upload world tr video) as [e|p] eqn:Hsave.
  { eexists; eexists [_]. split; [reflexivity |].
    split; [simpl; intuition discriminate |]. left.
    split; [reflexivity | now exists e]. }
  rewrite !mbind_run. unfold call at 1.
  destruct (whisper_transcribe world _ p) as [e|t] eqn:Hwhisper;
    rewrite <- app_assoc; simpl app.
  { eexists; eexists [_; _]. split; [reflexivity |].
    split; [simpl; intuition discriminate |]. left.
    split; [reflexivity | now exists e]. }
  rewrite mbind_run. unfold call.
  destruct (path_unlink world _ p) as [e|u] eqn:Hunlink;
    rewrite <- app_assoc; simpl app;
    (eexists; eexists [_; _; _]; split; [reflexivity |];
     split; [simpl; intuition discriminate |]).
  - left. split; [reflexivity | now exists e].
  - right. split; [reflexivity |]. exists p, t. repeat split; assumption.
Qed.

(** X7.  The temporary file outlives a failed request: when the
    transcription raises, or when the completion request of a Summary query
    raises, [/analyze] answers with the envelope [{"error": str(e)}] and
    status 500, and stops without removing the file it has written. *)
Theorem analyze_video_failure_leaves_file
        (world : World) (video : UploadFile) (q : string) (tr : trace)
        (p : string) :
  save_upload world tr video = inr p ->
  (forall e,
     whisper_transcribe world (tr ++ [EvSaveUpload video])%list p = inl e ->
     analyze_video world video q tr
     = (inr (JSONResponse 500 (PyDict [("error", PyStr (exn_str e))])),
        (tr ++ [EvSaveUpload video; EvTranscribe p])%list))
  /\ (forall t e,
        whisper_transcribe world (tr ++ [EvSaveUpload video])%list p = inr t ->
        spec_matches Summary q ->
        let prompt := "Here is the transcript of a video:

" ++ t ++ "

Now respond to the following request:
" ++ q in
        let request :=
          {| url := "https://api.groq.com/openai/v1/chat/completions";
             headers :=
               [("Authorization", "Bearer " ++ match GROQ_API_KEY world with
                   | Some key => key
                   | None => "None"
                   end);
                ("Content-Type", "application/json")];
             payload :=
               PyDict
                 [("model", PyStr "llama3-8b-8192");
                  ("messages",
                   PyList
                     [PyDict
                        [("role", PyStr "system");
                         ("content",
                          PyStr "You are a helpful assistant for summarizing video content.")];
                      PyDict [("role", PyStr "user"); ("content", PyStr prompt)]]);
                  ("temperature", PyFloat "0.5")] |} in
        requests_post world (tr ++ [EvSaveUpload video; EvTranscribe p])%list
                      request
        = inl e ->
        analyze_video world video q tr
        = (inr (JSONResponse 500 (PyDict [("error", PyStr (exn_str e))])),
           (tr ++ [EvSaveUpload video; EvTranscribe p; EvPost request])%list)).
Proof.
  intros Hsave. split.
  - intros e Hwhisper. exec. rewrite Hsave. enter. rewrite Hwhisper.
    reflexivity.
  - intros t e Hwhisper Hq prompt request Hpost.
    assert (Hany : Str.any_in summary_keywords (Str.lower q) = true)
      by exact (proj1 (matches_iff Summary _) Hq).
    exec. rewrite Hsave. enter. rewrite Hwhisper. enter.
    cbn [user_query transcript]. rewrite Hany. enter.
    change {| url := _; headers := _; payload := _ |} with request.
    rewrite Hpost. reflexivity.
Qed.

Lemma analyze_video_failure_leaves_file_witness :
  analyze_video world_bad_media [] "what is the weather" []
  = (inr (JSONResponse 500 (PyDict [("error", PyStr "Failed to load audio")])),
     [EvSaveUpload []; EvTranscribe "/tmp/tmpab12cd.mp4"])
  /\ analyze_video world_offline [] "give me a summary" []
     = (inr (JSONResponse 500 (PyDict [("error", PyStr "Connection refused")])),
        [EvSaveUpload []; EvTranscribe "/tmp/tmpab12cd.mp4";
         EvPost
           {| url := "https://api.groq.com/openai/v1/chat/completions";
              headers :=
                [("Authorization", "Bearer None");
                 ("Content-Type", "application/json")];
              payload :=
                PyDict
                  [("model", PyStr "llama3-8b-8192");
                   ("messages",
                    PyList
                      [PyDict
                         [("role", PyStr "system");
                          ("content",
                           PyStr "You are a helpful assistant for summarizing video content.")];
                       PyDict [("role", PyStr "user"); ("content", PyStr "Here is the transcript of a video:

 Hello and welcome to the show.

Now respond to the following request:
give me a summary")]]);
                   ("temperature", PyFloat "0.5")] |}]).
Proof.
  split.
  - destruct (analyze_video_failure_leaves_file world_bad_media []
                "what is the weather" [] "/tmp/tmpab12cd.mp4" eq_refl)
      as (Hwhisper & _).
    apply (Hwhisper (Exn "RuntimeError" "Failed to load audio")). reflexivity.
  - destruct (analyze_video_failure_leaves_file world_offline []
                "give me a summary" [] "/tmp/tmpab12cd.mp4" eq_refl)
      as (_ & Hpost).
    apply (Hpost " Hello and welcome to the show."
                 (Exn "ConnectionError" "Connection refused"));
      try reflexivity.
    exists "summary". split; [simpl; tauto |].
    exists "summary". split; [apply eq_ci_lower; reflexivity |].
    exists "give me a ", "". reflexivity.
Defined.
